(** * F200 hardware monitor I/O: command framing, USB exchange, calibration decode

    Shallow embedding of [src/F200/HardwareIO.cpp].

    Conventions of the embedding.
    - A C object accessed through a [uint8_t *] is a [buffer] (a list of
      bytes); a pointer into it is a byte offset, a [Z].  Every access is
      bounds checked against the object; an access outside it is undefined
      behaviour in C and [None] here.
    - [int], [size_t], [uint16_t] and [uint32_t] values are [Z]; the
      conversions the C code performs are written out ([to_int],
      [to_size_t], [to_uint16]; a 32-bit store keeps the low 4 bytes).
      The data model is LP64: 32-bit [int], 64-bit [size_t].
    - Scalars are stored little endian (the wire format of the monitor
      protocol, and the byte order of the hosts the driver runs on).
    - Calls that leave the file (libusb, the calibration object, printf)
      are recorded as events; what libusb answers is an input. *)

From Stdlib Require Import String.
From Stdlib Require Import ZArith List Bool Lia.
From coqutil Require Import Byte Word.LittleEndianList.
Import ListNotations.
Local Open Scope Z_scope.

(** ** Integer conversions *)

Definition INT_MAX : Z := 2 ^ 31 - 1.

Definition to_int (z : Z) : Z := (z + 2 ^ 31) mod 2 ^ 32 - 2 ^ 31.
Definition to_size_t (z : Z) : Z := z mod 2 ^ 64.
Definition to_uint16 (z : Z) : Z := z mod 2 ^ 16.

(** ** Byte buffers *)

Module Mem.

Definition buffer := list byte.

Definition bind {A B : Type} (m : option A) (k : A -> option B) : option B :=
  match m with
  | Some a => k a
  | None => None
  end.

Definition in_bounds (b : buffer) (off n : Z) : bool :=
  (0 <=? off) && (0 <=? n) && (off + n <=? Z.of_nat (length b)).

Definition load_bytes (b : buffer) (off n : Z) : option (list byte) :=
  if in_bounds b off n
  then Some (firstn (Z.to_nat n) (skipn (Z.to_nat off) b))
  else None.

Definition store_bytes (b : buffer) (off : Z) (bs : list byte) : option buffer :=
  if in_bounds b off (Z.of_nat (length bs))
  then Some (firstn (Z.to_nat off) b ++ bs
             ++ skipn (Z.to_nat off + length bs) b)
  else None.

Definition memcpy (dst : buffer) (doff : Z) (src : buffer) (soff : Z) (n : Z)
  : option buffer :=
  bind (load_bytes src soff n) (store_bytes dst doff).

Definition memset (dst : buffer) (doff : Z) (c : byte) (n : Z) : option buffer :=
  if 0 <=? n then store_bytes dst doff (repeat c (Z.to_nat n)) else None.

(** [memcmp] over two byte sequences of the same length: zero when they
    agree, otherwise the sign of the first difference. *)
Fixpoint memcmp (a b : list byte) : Z :=
  match a, b with
  | x :: a', y :: b' =>
      if byte.unsigned x =? byte.unsigned y then memcmp a' b'
      else if byte.unsigned x <? byte.unsigned y then -1 else 1
  | _, _ => 0
  end.

Definition load_u8 (b : buffer) (off : Z) : option Z :=
  bind (load_bytes b off 1) (fun bs => Some (le_combine bs)).
Definition load_u16 (b : buffer) (off : Z) : option Z :=
  bind (load_bytes b off 2) (fun bs => Some (le_combine bs)).
Definition load_u32 (b : buffer) (off : Z) : option Z :=
  bind (load_bytes b off 4) (fun bs => Some (le_combine bs)).

Definition store_u16 (b : buffer) (off : Z) (v : Z) : option buffer :=
  store_bytes b off (le_split 2 v).
Definition store_u32 (b : buffer) (off : Z) (v : Z) : option buffer :=
  store_bytes b off (le_split 4 v).

Definition zeros (n : Z) : buffer := repeat Byte.x00 (Z.to_nat n).

End Mem.

Import Mem.

Declare Scope mem_scope.
Notation "x <- m ;; k" := (Mem.bind m (fun x => k))
  (at level 61, m at next level, right associativity) : mem_scope.
Local Open Scope mem_scope.

(** ** Protocol constants *)

Definition IVCAM_MONITOR_MAGIC_NUMBER : Z := 0xcdab.
Definition IVCAM_MIN_SUPPORTED_VERSION : Z := 13.
Definition IVCAM_MONITOR_MAX_BUFFER_SIZE : Z := 1024.
Definition IVCAM_MONITOR_HEADER_SIZE : Z := 4 * 6.
Definition IVCAM_MONITOR_MUTEX_TIMEOUT : Z := 3000.
Definition HW_MONITOR_BUFFER_SIZE : Z := 1000.
Definition SIZE_OF_CALIB_PARAM_BYTES : Z := 512.
Definition SIZE_OF_CALIB_HEADER_BYTES : Z := 4.
Definition GetCalibrationTable : Z := 0x3D.

(** ** Version extraction *)

(** [for (i = 0; i < bufsize; i++) r = r * 10 + *buf++;] with [r] an [int]:
    a signed overflow is undefined. *)
Fixpoint bcdtoint_loop (mem : buffer) (buf : Z) (n : nat) (r : Z) : option Z :=
  match n with
  | O => Some r
  | S n' =>
      d <- load_u8 mem buf ;;
      let r' := r * 10 + d in
      if r' <=? INT_MAX then bcdtoint_loop mem (buf + 1) n' r' else None
  end.

Definition bcdtoint (mem : buffer) (buf : Z) (bufsize : Z) : option Z :=
  bcdtoint_loop mem buf (Z.to_nat bufsize) 0.

Definition valid_tag : list byte := [Byte.x14; Byte.x0a].

Definition getVersionOfCalibration (mem : buffer) (validation version : Z)
  : option Z :=
  tag <- load_bytes mem validation 2 ;;
  if memcmp valid_tag tag =? 0 then bcdtoint mem version 2 else Some 0.

(** ** Command Framer *)

Record prepared := {
  prep_ret : Z;              (* the returned [int] *)
  prep_request : buffer;     (* the request buffer afterwards *)
  prep_requestSize : Z       (* [requestSize] afterwards *)
}.

(** [data] is the object behind the [data] pointer; the null default is the
    empty object.  [index] is an [int]: [index += dataLength] adds in
    [size_t] and converts back, [index - sizeof(uint32_t)] subtracts in
    [size_t] and is cut to 16 bits; the reduction modulo [2 ^ 64] of either
    result is absorbed by the narrower conversion that follows it. *)
Definition PrepareUSBCommand (request : buffer) (requestSize : Z)
  (op p1 p2 p3 p4 : Z) (data : buffer) (dataLength : Z) : option prepared :=
  if requestSize <? IVCAM_MONITOR_HEADER_SIZE then
    Some {| prep_ret := 0; prep_request := request;
            prep_requestSize := requestSize |}
  else
    let index := 2 in
    r <- store_u16 request index IVCAM_MONITOR_MAGIC_NUMBER ;;
    let index := index + 2 in
    r <- store_u32 r index op ;;
    let index := index + 4 in
    r <- store_u32 r index p1 ;;
    let index := index + 4 in
    r <- store_u32 r index p2 ;;
    let index := index + 4 in
    r <- store_u32 r index p3 ;;
    let index := index + 4 in
    r <- store_u32 r index p4 ;;
    let index := index + 4 in
    ri <- (if dataLength =? 0 then Some (r, index)
           else r' <- memcpy r index data 0 dataLength ;;
                Some (r', to_int (to_size_t index + dataLength))) ;;
    let '(r, index) := ri in
    r <- store_u16 r 0 (to_uint16 (to_size_t index - 4)) ;;
    Some {| prep_ret := index; prep_request := r;
            prep_requestSize := to_size_t index |}.

(** ** Transport Executor *)

Definition IVCAM_MONITOR_ENDPOINT_OUT : Z := 0x1.
Definition IVCAM_MONITOR_ENDPOINT_IN : Z := 0x81.

Inductive event :=
| try_lock_for (ms : Z) (acquired : bool)
| unlock
| libusb_bulk_transfer (endpoint : Z) (data : buffer) (length : Z) (timeout : Z)
| printf (format : string).

(** What libusb answers during one exchange: the return value of each of
    the two calls, the value it leaves in [outXfer] after the IN call, and
    the contents of the scratch buffer [buf] after the IN call. *)
Record Device := {
  out_ret : Z;
  in_ret : Z;
  in_transferred : Z;
  in_buf : buffer
}.

Inductive outcome (A : Type) :=
| Returned (a : A)
| Thrown (what : string)
| UndefinedBehaviour.
Arguments Returned {A} a.
Arguments Thrown {A} what.
Arguments UndefinedBehaviour {A}.

(** State after a call of [ExecuteUSBCommand]: how it ended, whether
    [usbMutex] is held, the reference parameters [op] and [inSize], the
    object behind [in] (the null pointer is [None]), and the events of the
    call in order. *)
Record Exchange := {
  result : outcome Z;
  usbMutex : bool;
  op_ref : Z;
  in_obj : option buffer;
  inSize_ref : Z;
  trace : list event
}.

Definition count_unlock (t : list event) : nat :=
  List.length (filter (fun e => match e with unlock => true | _ => false end) t).

Definition msg_endpoint_out : string :=
  "[libusb failure] libusb_bulk_transfer (endpoint_out) - status: %s".
Definition msg_endpoint_in : string :=
  "[libusb failure] libusb_bulk_transfer (endpoint_in) - status: %s".
Definition msg_too_small : string :=
  "usb_device_bulk_transfer IN failed: user buffer too small (%d:%zu)".
Definition msg_mutex_timeout : string := "usbMutex timed out".

(** [held] is the state of [usbMutex] when the call starts; a mutex that
    is held stays held for the whole timeout, so [try_lock_for] fails. *)
Definition ExecuteUSBCommand (dev : Device) (held : bool)
  (out : buffer) (outSize : Z) (op : Z) (in_ : option buffer) (inSize : Z)
  : Exchange :=
  if negb held then
    let t := [try_lock_for IVCAM_MONITOR_MUTEX_TIMEOUT true;
              libusb_bulk_transfer IVCAM_MONITOR_ENDPOINT_OUT out
                (to_int outSize) 1000] in
    let ret := out_ret dev in
    if ret <? 0 then
      {| result := Returned ret; usbMutex := true; op_ref := op;
         in_obj := in_; inSize_ref := inSize;
         trace := t ++ [printf msg_endpoint_out] |}
    else
      match in_ with
      | Some inb =>
          if negb (inSize =? 0) then
            let t := t ++ [libusb_bulk_transfer IVCAM_MONITOR_ENDPOINT_IN []
                             IVCAM_MONITOR_MAX_BUFFER_SIZE 1000] in
            let ret := in_ret dev in
            let outXfer := in_transferred dev in
            if outXfer <? to_int 4 then
              {| result := Returned (-1); usbMutex := false; op_ref := op;
                 in_obj := in_; inSize_ref := inSize;
                 trace := t ++ [printf msg_endpoint_in; unlock] |}
            else
              match load_u32 (in_buf dev) 0 with
              | None =>
                  {| result := UndefinedBehaviour; usbMutex := true;
                     op_ref := op; in_obj := in_; inSize_ref := inSize;
                     trace := t |}
              | Some op' =>
                  if outXfer >? to_int inSize then
                    {| result := Returned (-1); usbMutex := false;
                       op_ref := op'; in_obj := in_; inSize_ref := inSize;
                       trace := t ++ [printf msg_too_small; unlock] |}
                  else
                    let inSize' := to_size_t outXfer in
                    match memcpy inb 0 (in_buf dev) 0 inSize' with
                    | None =>
                        {| result := UndefinedBehaviour; usbMutex := true;
                           op_ref := op'; in_obj := in_;
                           inSize_ref := inSize'; trace := t |}
                    | Some inb' =>
                        {| result := Returned ret; usbMutex := false;
                           op_ref := op'; in_obj := Some inb';
                           inSize_ref := inSize';
                           trace := t ++ [unlock] |}
                    end
              end
          else
            {| result := Returned ret; usbMutex := false; op_ref := op;
               in_obj := in_; inSize_ref := inSize; trace := t ++ [unlock] |}
      | None =>
          {| result := Returned ret; usbMutex := false; op_ref := op;
             in_obj := in_; inSize_ref := inSize; trace := t ++ [unlock] |}
      end
  else
    {| result := Thrown msg_mutex_timeout; usbMutex := true; op_ref := op;
       in_obj := in_; inSize_ref := inSize;
       trace := [try_lock_for IVCAM_MONITOR_MUTEX_TIMEOUT false] |}.

(** ** Calibration Fetcher *)

Definition msg_calibration_failed : string :=
  "usb transfer to retrieve calibration data failed".

(** State after a call of [GetCalibrationRawData]. *)
Record Fetch := {
  fetch_result : outcome unit;
  fetch_usbMutex : bool;
  fetch_data : option buffer;
  fetch_bytesReturned : Z;
  fetch_trace : list event
}.

(** The local [request] starts with indeterminate contents, taken as zeros:
    [PrepareUSBCommand] overwrites all of its 24 bytes.  [responseOp] starts
    indeterminate as well and is only ever written. *)
Definition GetCalibrationRawData (dev : Device) (held : bool)
  (data : option buffer) (bytesReturned : Z) : Fetch :=
  let request := zeros IVCAM_MONITOR_HEADER_SIZE in
  let requestSize := IVCAM_MONITOR_HEADER_SIZE in
  let responseOp := 0 in
  match PrepareUSBCommand request requestSize GetCalibrationTable 0 0 0 0 [] 0 with
  | None =>
      {| fetch_result := UndefinedBehaviour; fetch_usbMutex := held;
         fetch_data := data; fetch_bytesReturned := bytesReturned;
         fetch_trace := [] |}
  | Some p =>
      if prep_ret p >? 0 then
        let e := ExecuteUSBCommand dev held (prep_request p)
                   (prep_requestSize p) responseOp data bytesReturned in
        {| fetch_result :=
             match result e with
             | Returned r =>
                 if negb (r =? -1) then Returned tt
                 else Thrown msg_calibration_failed
             | Thrown what => Thrown what
             | UndefinedBehaviour => UndefinedBehaviour
             end;
           fetch_usbMutex := usbMutex e;
           fetch_data := in_obj e;
           fetch_bytesReturned := inSize_ref e;
           fetch_trace := trace e |}
      else
        {| fetch_result := Thrown msg_calibration_failed;
           fetch_usbMutex := held; fetch_data := data;
           fetch_bytesReturned := bytesReturned; fetch_trace := [] |}
  end.

(** ** Calibration Decoder *)

(** Sizes and member offsets of the structs of [F200Types.h] that the
    decoder overlays on byte buffers.  The header is outside the verified
    sources, so the decoder is parameterised by them. *)
Record Layout := {
  sizeof_CameraCalibrationParameters : Z;
  sizeof_CameraCalibrationParametersVersion : Z;
  offsetof_CalibrationParameters : Z;   (* in CameraCalibrationParametersVersion *)
  sizeof_IVCAMTesterData : Z;
  offsetof_TemperatureData : Z;         (* in IVCAMTesterData *)
  sizeof_IVCAMTemperatureData : Z;
  offsetof_ThermalLoopParams : Z;       (* in IVCAMTesterData *)
  sizeof_IVCAMThermalLoopParams : Z
}.

(** What a C compiler guarantees of these numbers: members lie inside
    their struct, the parameter block of the versioned struct comes after
    its leading [int], the tester data begins with its 4-byte header. *)
Definition layout_ok (L : Layout) : Prop :=
  0 <= sizeof_CameraCalibrationParameters L /\
  4 <= offsetof_CalibrationParameters L /\
  offsetof_CalibrationParameters L + sizeof_CameraCalibrationParameters L
    <= sizeof_CameraCalibrationParametersVersion L /\
  sizeof_CameraCalibrationParametersVersion L <= INT_MAX /\
  4 <= sizeof_IVCAMTesterData L <= INT_MAX /\
  0 <= offsetof_TemperatureData L /\
  0 <= sizeof_IVCAMTemperatureData L /\
  offsetof_TemperatureData L + sizeof_IVCAMTemperatureData L
    <= sizeof_IVCAMTesterData L /\
  0 <= offsetof_ThermalLoopParams L /\
  0 <= sizeof_IVCAMThermalLoopParams L /\
  offsetof_ThermalLoopParams L + sizeof_IVCAMThermalLoopParams L
    <= sizeof_IVCAMTesterData L.

(** A layout to run the decoder on: a parameter struct of 112 floats
    behind an [int] and two [int16_t]; tester data made of the 4-byte
    header, 3 floats of temperatures and 23 floats of loop parameters. *)
Definition sample_layout : Layout := {|
  sizeof_CameraCalibrationParameters := 448;
  sizeof_CameraCalibrationParametersVersion := 456;
  offsetof_CalibrationParameters := 8;
  sizeof_IVCAMTesterData := 108;
  offsetof_TemperatureData := 4;
  sizeof_IVCAMTemperatureData := 12;
  offsetof_ThermalLoopParams := 16;
  sizeof_IVCAMThermalLoopParams := 92
|}.

(** Calls on the calibration object, with the bytes each one is handed:
    [buildParameters(const float *, int)] gets the memory its pointer
    reaches, the other two get the structs they are passed. *)
Inductive calibrator_call :=
| buildParameters_array (params : buffer) (n : Z)
| buildParameters_struct (CalibrationParameters : buffer)
| InitializeThermalData (TemperatureData ThermalLoopParams : buffer).

Definition is_InitializeThermalData (c : calibrator_call) : bool :=
  match c with
  | InitializeThermalData _ _ => true
  | _ => false
  end.

(** State when [ProjectionCalibrate] returns: the object behind [calprms],
    the two locals, and the calls made on the calibration object. *)
Record Decoded := {
  calprms_obj : buffer;
  CalibrationData : buffer;
  TesterData : buffer;
  calls : list calibrator_call
}.

(** The lambda of the versioned branch: [size] is an [int], the byte count
    is computed in [size_t]. *)
Definition fixWithVersionInfo (d : buffer) (size : Z) (mem : buffer) (data : Z)
  : option buffer :=
  memcpy d 4 mem data (to_size_t (to_size_t size - 4)).

(** The same step as the specification words it: [size] bytes are copied
    to the position behind the leading integer field. *)
Definition fixWithVersionInfo_as_specified (d : buffer) (size : Z)
  (mem : buffer) (data : Z) : option buffer :=
  memcpy d 4 mem data size.

Section Decoder.

Variable L : Layout.

Let sizeCCP := sizeof_CameraCalibrationParameters L.
Let sizeCCPV := sizeof_CameraCalibrationParametersVersion L.
Let sizeTD := sizeof_IVCAMTesterData L.

(** [rawCalibData] is the whole object behind the pointer, [calprms] the
    object behind the output pointer, [TesterData0] the indeterminate
    initial contents of the local [TesterData]. *)
Definition ProjectionCalibrate (rawCalibData : buffer) (len : Z)
  (calprms : buffer) (TesterData0 : buffer) : option Decoded :=
  let bufParams := 4 in
  let CalibrationData0 := zeros sizeCCPV in
  ver <- getVersionOfCalibration rawCalibData bufParams (bufParams + 2) ;;
  if ver =? IVCAM_MIN_SUPPORTED_VERSION then
    let params := bufParams in
    calprms' <- memcpy calprms 0 rawCalibData (params + 4) sizeCCP ;;
    td <- memcpy TesterData0 0 rawCalibData bufParams SIZE_OF_CALIB_HEADER_BYTES ;;
    td <- memset td SIZE_OF_CALIB_HEADER_BYTES Byte.x00
            (to_size_t (sizeTD - SIZE_OF_CALIB_HEADER_BYTES)) ;;
    Some {| calprms_obj := calprms';
            CalibrationData := CalibrationData0;
            TesterData := td;
            calls := [buildParameters_array
                        (skipn (Z.to_nat params) rawCalibData) 100] |}
  else if ver >? IVCAM_MIN_SUPPORTED_VERSION then
    let rawCalibData' := 4 in
    let size := to_int (if sizeCCPV >? to_size_t len
                        then to_size_t len else sizeCCPV) in
    cd <- fixWithVersionInfo CalibrationData0 size rawCalibData rawCalibData' ;;
    calprms' <- memcpy calprms 0 cd (offsetof_CalibrationParameters L) sizeCCP ;;
    cp <- load_bytes cd (offsetof_CalibrationParameters L) sizeCCP ;;
    td <- memcpy TesterData0 0 rawCalibData rawCalibData'
            SIZE_OF_CALIB_HEADER_BYTES ;;
    let EndOfCalibratioData :=
      SIZE_OF_CALIB_PARAM_BYTES + SIZE_OF_CALIB_HEADER_BYTES in
    td <- memcpy td SIZE_OF_CALIB_HEADER_BYTES rawCalibData
            (rawCalibData' + EndOfCalibratioData)
            (to_size_t (sizeTD - SIZE_OF_CALIB_HEADER_BYTES)) ;;
    temp <- load_bytes td (offsetof_TemperatureData L)
              (sizeof_IVCAMTemperatureData L) ;;
    loop <- load_bytes td (offsetof_ThermalLoopParams L)
              (sizeof_IVCAMThermalLoopParams L) ;;
    Some {| calprms_obj := calprms';
            CalibrationData := cd;
            TesterData := td;
            calls := [buildParameters_struct cp;
                      InitializeThermalData temp loop] |}
  else
    Some {| calprms_obj := calprms;
            CalibrationData := CalibrationData0;
            TesterData := TesterData0;
            calls := [] |}.

End Decoder.

(** ** Concrete inputs *)

(** A raw transfer of 1000 bytes: a zero prefix, tag and version bytes,
    then 992 bytes [fill]. *)
Definition raw_transfer (t0 t1 v0 v1 fill : byte) : buffer :=
  Byte.x00 :: Byte.x00 :: Byte.x00 :: Byte.x00
  :: t0 :: t1 :: v0 :: v1 :: repeat fill 992.

(** The OUT transfer times out (LIBUSB_ERROR_TIMEOUT is -7). *)
Definition dev_out_timeout : Device :=
  {| out_ret := -7; in_ret := 0; in_transferred := 0;
     in_buf := zeros IVCAM_MONITOR_MAX_BUFFER_SIZE |}.

(** The device answers with [n] bytes: status word 1, then bytes 0xAA. *)
Definition dev_answers (n : Z) : Device :=
  {| out_ret := 0; in_ret := 0; in_transferred := n;
     in_buf := le_split 4 1 ++ repeat Byte.xaa 1020 |}.


(** ** The second framer *)

(** [FillUSBBuffer] works on [int]s: [cur_index += dataLength] is a signed
    addition (an overflow is undefined), the byte count of the [memcpy] is
    [dataLength] converted to [size_t], and the length field is computed
    in [int] before it is cut to 16 bits.  There is no capacity test.  The
    result is the buffer behind [bufferToSend] and the value left in
    [length], whose value on entry is not read. *)
Definition FillUSBBuffer (opCodeNumber p1 p2 p3 p4 : Z) (data : buffer)
  (dataLength : Z) (bufferToSend : buffer) (length_in : Z)
  : option (buffer * Z) :=
  let preHeaderData := to_uint16 IVCAM_MONITOR_MAGIC_NUMBER in
  let writePtr := bufferToSend in
  let header_size := 4 in
  let cur_index := 2 in
  w <- store_u16 writePtr cur_index preHeaderData ;;
  let cur_index := cur_index + 2 in
  w <- store_u32 w cur_index opCodeNumber ;;
  let cur_index := cur_index + 4 in
  w <- store_u32 w cur_index p1 ;;
  let cur_index := cur_index + 4 in
  w <- store_u32 w cur_index p2 ;;
  let cur_index := cur_index + 4 in
  w <- store_u32 w cur_index p3 ;;
  let cur_index := cur_index + 4 in
  w <- store_u32 w cur_index p4 ;;
  let cur_index := cur_index + 4 in
  wi <- (if dataLength =? 0 then Some (w, cur_index)
         else w' <- memcpy w cur_index data 0 (to_size_t dataLength) ;;
              if (- 2 ^ 31 <=? cur_index + dataLength)
                 && (cur_index + dataLength <=? INT_MAX)
              then Some (w', cur_index + dataLength) else None) ;;
  let '(w, cur_index) := wi in
  let length := cur_index in
  w <- store_u16 w 0 (to_uint16 (length - header_size)) ;;
  Some (w, length).

(** ** Exchanges one after the other *)

(** The arguments of one call of [ExecuteUSBCommand] together with what
    libusb answers during it. *)
Record call := {
  call_dev : Device;
  call_out : buffer;
  call_outSize : Z;
  call_op : Z;
  call_in : option buffer;
  call_inSize : Z
}.

(** Calls made one after the other on the same object: each one finds
    [usbMutex] as the previous one left it. *)
Fixpoint run_calls (held : bool) (cs : list call) : list Exchange :=
  match cs with
  | [] => []
  | c :: cs' =>
      let e := ExecuteUSBCommand (call_dev c) held (call_out c)
                 (call_outSize c) (call_op c) (call_in c) (call_inSize c) in
      e :: run_calls (usbMutex e) cs'
  end.

(** A call within the contracts of its parts: libusb reports no more bytes
    than the scratch buffer holds, and the capacity the caller states fits
    an [int] and is no larger than the caller's buffer. *)
Definition sound_call (c : call) : Prop :=
  4 <= Z.of_nat (List.length (in_buf (call_dev c)))
  /\ in_transferred (call_dev c) <= Z.of_nat (List.length (in_buf (call_dev c)))
  /\ match call_in c with
     | Some inb =>
         0 <= call_inSize c <= INT_MAX
         /\ call_inSize c <= Z.of_nat (List.length inb)
     | None => True
     end.

Definition is_bulk_transfer (e : event) : bool :=
  match e with
  | libusb_bulk_transfer _ _ _ _ => true
  | _ => false
  end.

Definition is_transfer_on (endpoint : Z) (e : event) : bool :=
  match e with
  | libusb_bulk_transfer ep _ _ _ => ep =? endpoint
  | _ => false
  end.

Definition count_transfers (endpoint : Z) (t : list event) : nat :=
  List.length (filter (is_transfer_on endpoint) t).

(** The 24 bytes of the "get calibration table" request. *)
Definition calibration_request : buffer :=
  le_split 2 20 ++ le_split 2 IVCAM_MONITOR_MAGIC_NUMBER
  ++ le_split 4 GetCalibrationTable ++ zeros 16.

(** The number a sequence of bytes stands for when every byte is taken as
    one decimal digit, most significant first. *)
Definition decimal_value (ds : list byte) : Z :=
  fold_left (fun r d => r * 10 + byte.unsigned d) ds 0.

(** ** Temperature reading *)

Section Temperatures.

(** [float] values are kept abstract; [float_of_int] is the conversion
    [(float) IRTemp]. *)
Variable float : Type.
Variable float_zero : float.
Variable float_of_int : Z -> float.

(** The members of [IVCAMTemperatureData] this file names. *)
Record IVCAMTemperatureData := {
  LiguriaTemp : float;
  IRTemp : float
}.

(** Both getters have their bodies commented out: they return [false] and
    leave the reference parameter alone. *)
Definition GetMEMStemp (MEMStemp : float) : bool * float := (false, MEMStemp).

Definition GetIRtemp (IRtemp : Z) : bool * Z := (false, IRtemp).

Definition msg_no_IR_temperature : string := "could not get IR temperature".
Definition msg_no_liguria_temperature : string :=
  "could not get liguria temperature".

(** [IRTemp0] and [LiguriaTemp0] are the indeterminate initial values of
    the two locals.  The result is how the call ends and the object behind
    [data]. *)
Definition ReadTemperatures (data : IVCAMTemperatureData)
  (IRTemp0 : Z) (LiguriaTemp0 : float) : outcome unit * IVCAMTemperatureData :=
  let data := {| LiguriaTemp := float_zero; IRTemp := float_zero |} in
  let '(ok, IRTemp1) := GetIRtemp IRTemp0 in
  if negb ok then (Thrown msg_no_IR_temperature, data)
  else
    let data := {| LiguriaTemp := LiguriaTemp data;
                   IRTemp := float_of_int IRTemp1 |} in
    let '(ok, LiguriaTemp1) := GetMEMStemp LiguriaTemp0 in
    if negb ok then (Thrown msg_no_liguria_temperature, data)
    else
      (Returned tt, {| LiguriaTemp := LiguriaTemp1; IRTemp := IRTemp data |}).

End Temperatures.

(** ** Hardware I/O object *)

Definition IVCAM_VID : Z := 0x8086.
Definition IVCAM_PID : Z := 0x0A66.
Definition IVCAM_MONITOR_INTERFACE : Z := 0x4.

(** Calls that leave the file during construction and destruction; the
    events of the monitor exchange and the calls on the calibration object
    are embedded. *)
Inductive facade_event :=
| uvc_get_libusb_context
| libusb_open_device_with_vid_pid (vid pid : Z)
| libusb_claim_interface (interface : Z)
| libusb_release_interface (interface : Z)
| monitor (e : event)
| calibrator (c : calibrator_call).

(** What the environment answers during construction: whether the device
    opens (a non-null handle), the status of the interface claim, and the
    answers of the monitor endpoints. *)
Record Host := {
  device_opens : bool;
  claim_status : Z;
  monitor_dev : Device
}.

(** The indeterminate initial contents of the constructor's locals and of
    the local [TesterData] of the decoder it calls. *)
Record Frame := {
  rawCalibrationBuffer : buffer;
  calibratedParameters : buffer;
  frame_TesterData : buffer
}.

(** The members of the object: [usbMutex] as the construction left it and
    the bytes of [parameters]. *)
Record Internal := {
  internal_usbMutex : bool;
  parameters : buffer
}.

Record Construction := {
  constructed : outcome Internal;
  ctor_trace : list facade_event
}.

Definition msg_no_context : string := "must pass libuvc context handle".
Definition msg_open_failed : string :=
  "libusb_open_device_with_vid_pid() failed".
Definition msg_claim_failed : string := "libusb_claim_interface() failed".

(** The constructor.  [ctx] is the pointer argument, [None] for null. *)
Definition IVCAMHardwareIOInternal (L : Layout) (ctx : option unit)
  (host : Host) (frame : Frame) : Construction :=
  match ctx with
  | None => {| constructed := Thrown msg_no_context; ctor_trace := [] |}
  | Some _ =>
      let t := [uvc_get_libusb_context;
                libusb_open_device_with_vid_pid IVCAM_VID IVCAM_PID] in
      if negb (device_opens host) then
        {| constructed := Thrown msg_open_failed; ctor_trace := t |}
      else
        let t := t ++ [libusb_claim_interface IVCAM_MONITOR_INTERFACE] in
        let status := claim_status host in
        if status <? 0 then
          {| constructed := Thrown msg_claim_failed; ctor_trace := t |}
        else
          let bufferLength := HW_MONITOR_BUFFER_SIZE in
          let f := GetCalibrationRawData (monitor_dev host) false
                     (Some (rawCalibrationBuffer frame)) bufferLength in
          let t := t ++ map monitor (fetch_trace f) in
          match fetch_result f, fetch_data f with
          | Returned _, Some raw =>
              match ProjectionCalibrate L raw
                      (to_int (fetch_bytesReturned f))
                      (calibratedParameters frame) (frame_TesterData frame)
              with
              | Some st =>
                  {| constructed :=
                       Returned {| internal_usbMutex := fetch_usbMutex f;
                                   parameters := calprms_obj st |};
                     ctor_trace := t ++ map calibrator (calls st) |}
              | None =>
                  {| constructed := UndefinedBehaviour; ctor_trace := t |}
              end
          | Thrown what, _ =>
              {| constructed := Thrown what; ctor_trace := t |}
          | _, _ =>
              {| constructed := UndefinedBehaviour; ctor_trace := t |}
          end
  end.

(** The destructor releases the interface and nothing else. *)
Definition IVCAMHardwareIOInternal_destructor (o : Internal)
  : list facade_event :=
  [libusb_release_interface IVCAM_MONITOR_INTERFACE].


Definition is_monitor_read (e : facade_event) : bool :=
  match e with
  | monitor ev => is_transfer_on IVCAM_MONITOR_ENDPOINT_IN ev
  | _ => false
  end.


(** ** Concrete hosts *)


Definition host_with (dev : Device) : Host :=
  {| device_opens := true; claim_status := 0; monitor_dev := dev |}.

Definition sample_frame : Frame :=
  {| rawCalibrationBuffer := repeat Byte.x55 1000;
     calibratedParameters := repeat Byte.xaa 448;
     frame_TesterData := repeat Byte.x55 108 |}.

(** * Properties *)

(** ** Buffers *)

Section MemFacts.

Implicit Types (b dst src : buffer) (bs : list byte) (off n : Z).

Lemma in_bounds_true b off n :
  0 <= off -> 0 <= n -> off + n <= Z.of_nat (List.length b) ->
  in_bounds b off n = true.
Proof.
  intros Ho Hn Hb. unfold in_bounds.
  rewrite !andb_true_iff, !Z.leb_le. auto.
Qed.

Lemma in_bounds_inv b off n :
  in_bounds b off n = true ->
  0 <= off /\ 0 <= n /\ off + n <= Z.of_nat (List.length b).
Proof.
  unfold in_bounds. rewrite !andb_true_iff, !Z.leb_le. tauto.
Qed.

Lemma load_bytes_ok b off n :
  0 <= off -> 0 <= n -> off + n <= Z.of_nat (List.length b) ->
  load_bytes b off n = Some (firstn (Z.to_nat n) (skipn (Z.to_nat off) b)).
Proof.
  intros. unfold load_bytes. now rewrite in_bounds_true.
Qed.

Lemma store_bytes_ok b off bs :
  0 <= off -> off + Z.of_nat (List.length bs) <= Z.of_nat (List.length b) ->
  store_bytes b off bs
  = Some (firstn (Z.to_nat off) b ++ bs
          ++ skipn (Z.to_nat off + List.length bs) b).
Proof.
  intros. unfold store_bytes. rewrite in_bounds_true; auto; lia.
Qed.

Lemma store_bytes_length b off bs b' :
  store_bytes b off bs = Some b' -> List.length b' = List.length b.
Proof.
  unfold store_bytes. destruct (in_bounds _ _ _) eqn:E; [|discriminate].
  apply in_bounds_inv in E. intros [= <-].
  rewrite !length_app, length_firstn, length_skipn. lia.
Qed.

(** A store followed by a load of the same range gives the bytes back. *)
Lemma load_store_same b off bs b' :
  store_bytes b off bs = Some b' ->
  load_bytes b' off (Z.of_nat (List.length bs)) = Some bs.
Proof.
  intros E. pose proof (store_bytes_length _ _ _ _ E) as Hlen.
  unfold store_bytes in E. destruct (in_bounds _ _ _) eqn:B; [|discriminate].
  apply in_bounds_inv in B. injection E as <-.
  rewrite load_bytes_ok by lia. f_equal.
  rewrite skipn_app, skipn_all2 by (rewrite length_firstn; lia).
  rewrite length_firstn.
  replace (Z.to_nat off - Nat.min (Z.to_nat off) (List.length b))%nat
    with 0%nat by lia.
  cbn [skipn app]. rewrite Nat2Z.id, firstn_app, firstn_all.
  rewrite Nat.sub_diag. cbn [firstn]. now rewrite app_nil_r.
Qed.

(** Overwriting a whole object leaves exactly the new bytes. *)
Lemma store_bytes_whole b bs :
  List.length bs = List.length b -> store_bytes b 0 bs = Some bs.
Proof.
  intros E. rewrite store_bytes_ok by lia.
  cbn [Z.to_nat firstn app Nat.add].
  rewrite skipn_all2 by lia. now rewrite app_nil_r.
Qed.

Lemma memcmp_refl bs : memcmp bs bs = 0.
Proof.
  induction bs as [|x bs IH]; cbn [memcmp]; [reflexivity|].
  now rewrite Z.eqb_refl.
Qed.

Lemma memcmp_zero bs bs' :
  List.length bs = List.length bs' -> memcmp bs bs' = 0 -> bs = bs'.
Proof.
  revert bs'. induction bs as [|x bs IH]; intros [|y bs'] Hl Hc;
    try discriminate; [reflexivity|].
  cbn [memcmp] in Hc.
  destruct (byte.unsigned x =? byte.unsigned y) eqn:E.
  - apply Z.eqb_eq, byte.unsigned_inj in E. subst y. f_equal.
    apply IH; [now injection Hl | exact Hc].
  - destruct (byte.unsigned x <? byte.unsigned y); discriminate.
Qed.

Lemma load_u8_cons_skip pre x post :
  load_u8 (pre ++ x :: post) (Z.of_nat (List.length pre))
  = Some (byte.unsigned x).
Proof.
  unfold load_u8. rewrite load_bytes_ok; rewrite ?length_app; cbn [List.length]; try lia.
  rewrite Nat2Z.id, skipn_app, skipn_all, Nat.sub_diag.
  change (Z.to_nat 1) with 1%nat.
  cbn [app skipn firstn bind]. now rewrite le_combine_1.
Qed.

Lemma firstn_repeat_le (x : byte) (n m : nat) :
  (n <= m)%nat -> firstn n (repeat x m) = repeat x n.
Proof.
  revert m. induction n as [|n IH]; intros [|m] H; cbn; try reflexivity; try lia.
  f_equal. apply IH. lia.
Qed.

Lemma skipn_repeat (x : byte) (n m : nat) :
  skipn n (repeat x m) = repeat x (m - n).
Proof.
  revert m. induction n as [|n IH]; intros [|m]; cbn; try reflexivity.
  apply IH.
Qed.

Lemma to_size_t_small (z : Z) : 0 <= z < 2 ^ 64 -> to_size_t z = z.
Proof. intros. unfold to_size_t. now apply Z.mod_small. Qed.

Lemma to_int_small (z : Z) : - 2 ^ 31 <= z < 2 ^ 31 -> to_int z = z.
Proof. intros. unfold to_int. rewrite Z.mod_small; lia. Qed.

End MemFacts.

(** ** Version extraction *)

Lemma load_u8_nth_error (b : buffer) (off : Z) (x : byte) :
  0 <= off -> nth_error b (Z.to_nat off) = Some x ->
  load_u8 b off = Some (byte.unsigned x).
Proof.
  intros Ho Hx.
  destruct (nth_error_split _ _ Hx) as (pre & post & -> & Hl).
  replace off with (Z.of_nat (List.length pre)) by lia.
  apply load_u8_cons_skip.
Qed.

Lemma bcdtoint_two (mem : buffer) (buf : Z) (b0 b1 : byte) :
  0 <= buf ->
  nth_error mem (Z.to_nat buf) = Some b0 ->
  nth_error mem (Z.to_nat (buf + 1)) = Some b1 ->
  bcdtoint mem buf 2 = Some (byte.unsigned b0 * 10 + byte.unsigned b1).
Proof.
  intros Hb H0 H1. unfold bcdtoint. change (Z.to_nat 2) with 2%nat.
  pose proof (byte.unsigned_range b0). pose proof (byte.unsigned_range b1).
  change (2 ^ 8) with 256 in *.
  change INT_MAX with 2147483647.
  cbn [bcdtoint_loop].
  rewrite (load_u8_nth_error _ _ _ Hb H0). cbn [bind].
  replace (0 * 10 + byte.unsigned b0 <=? INT_MAX) with true
    by (symmetry; apply Z.leb_le; change INT_MAX with 2147483647; lia).
  rewrite (load_u8_nth_error mem (buf + 1) b1) by (lia || exact H1). cbn [bind].
  replace (_ <=? INT_MAX) with true
    by (symmetry; apply Z.leb_le; change INT_MAX with 2147483647; lia).
  reflexivity.
Qed.

(** The version of a blob: prefix, tag, version bytes. *)
Lemma getVersionOfCalibration_blob (p0 p1 p2 p3 t0 t1 v0 v1 : byte) (rest : buffer) :
  getVersionOfCalibration (p0 :: p1 :: p2 :: p3 :: t0 :: t1 :: v0 :: v1 :: rest)
    4 (4 + 2)
  = Some (if memcmp valid_tag [t0; t1] =? 0
          then byte.unsigned v0 * 10 + byte.unsigned v1 else 0).
Proof.
  unfold getVersionOfCalibration.
  rewrite load_bytes_ok by (cbn [List.length]; lia).
  change (Z.to_nat 2) with 2%nat. change (Z.to_nat 4) with 4%nat.
  cbn [skipn firstn bind].
  destruct (memcmp valid_tag [t0; t1] =? 0); [|reflexivity].
  apply bcdtoint_two; [lia | reflexivity | reflexivity].
Qed.

Lemma valid_tag_memcmp (t0 t1 : byte) :
  (memcmp valid_tag [t0; t1] =? 0) = true <-> [t0; t1] = valid_tag.
Proof.
  rewrite Z.eqb_eq. split.
  - intros H. symmetry. now apply memcmp_zero.
  - intros ->. apply memcmp_refl.
Qed.

(** ** Calibration Decoder *)

Section DecoderFacts.

Variable L : Layout.

(** The decoder on a blob whose version comes out below the minimum:
    nothing is written, nothing is called. *)
Lemma ProjectionCalibrate_low_version
  (p0 p1 p2 p3 t0 t1 v0 v1 : byte) (rest : buffer) (len : Z)
  (calprms TesterData0 : buffer) :
  (if memcmp valid_tag [t0; t1] =? 0
   then byte.unsigned v0 * 10 + byte.unsigned v1 else 0) < 13 ->
  ProjectionCalibrate L
    (p0 :: p1 :: p2 :: p3 :: t0 :: t1 :: v0 :: v1 :: rest) len calprms TesterData0
  = Some {| calprms_obj := calprms;
            CalibrationData :=
              zeros (sizeof_CameraCalibrationParametersVersion L);
            TesterData := TesterData0;
            calls := [] |}.
Proof.
  intros Hv. unfold ProjectionCalibrate.
  rewrite getVersionOfCalibration_blob. cbn [bind].
  unfold IVCAM_MIN_SUPPORTED_VERSION.
  destruct (Z.eqb_spec (if memcmp valid_tag [t0; t1] =? 0
     then byte.unsigned v0 * 10 + byte.unsigned v1 else 0) 13) as [E|_]; [lia|].
  destruct (Z.gtb_spec (if memcmp valid_tag [t0; t1] =? 0
     then byte.unsigned v0 * 10 + byte.unsigned v1 else 0) 13) as [E|_]; [lia|].
  reflexivity.
Qed.

(** C6: a blob whose tag is not {0x14, 0x0A}, or whose tag is valid and
    whose BCD version is below 13, leaves the object behind [calprms]
    exactly as it was; the calibration object is not called either. *)
Theorem ProjectionCalibrate_rejected_blob_keeps_output
  (p0 p1 p2 p3 t0 t1 v0 v1 : byte) (rest : buffer) (len : Z)
  (calprms TesterData0 : buffer) :
  [t0; t1] <> valid_tag \/
  ([t0; t1] = valid_tag /\ byte.unsigned v0 * 10 + byte.unsigned v1 < 13) ->
  exists st,
    ProjectionCalibrate L
      (p0 :: p1 :: p2 :: p3 :: t0 :: t1 :: v0 :: v1 :: rest) len calprms TesterData0
    = Some st
    /\ calprms_obj st = calprms
    /\ calls st = [].
Proof.
  intros H. eexists. split; [apply ProjectionCalibrate_low_version|split; reflexivity].
  destruct (memcmp valid_tag [t0; t1] =? 0) eqn:E.
  - apply valid_tag_memcmp in E. destruct H as [H|[_ H]]; [contradiction|exact H].
  - lia.
Qed.

Let sizeCCP := sizeof_CameraCalibrationParameters L.
Let sizeCCPV := sizeof_CameraCalibrationParametersVersion L.
Let sizeTD := sizeof_IVCAMTesterData L.

(** C5: on a blob with the valid tag and BCD version exactly 13 the
    decoder hands the 100-float array [params] to [buildParameters], fills
    the object behind [calprms] with the bytes of floats [1..] of that
    array (byte offset 4 of it, one float skipped), builds the tester data
    from the 4 header bytes followed by zeros only, and does not call
    [InitializeThermalData]. *)
Theorem ProjectionCalibrate_minimum_version
  (p0 p1 p2 p3 v0 v1 : byte) (rest : buffer) (len : Z)
  (calprms TesterData0 : buffer) :
  layout_ok L ->
  byte.unsigned v0 * 10 + byte.unsigned v1 = 13 ->
  Z.of_nat (List.length calprms) = sizeCCP ->
  Z.of_nat (List.length TesterData0) = sizeTD ->
  sizeCCP <= Z.of_nat (List.length rest) ->
  let params := Byte.x14 :: Byte.x0a :: v0 :: v1 :: rest in
  exists st,
    ProjectionCalibrate L (p0 :: p1 :: p2 :: p3 :: params) len calprms TesterData0
    = Some st
    /\ calprms_obj st = firstn (Z.to_nat sizeCCP) (skipn 4 params)
    /\ TesterData st = firstn 4 params ++ zeros (sizeTD - 4)
    /\ calls st = [buildParameters_array params 100]
    /\ existsb is_InitializeThermalData (calls st) = false.
Proof.
  intros (Hccp & Hoff & Hin & Hmax & Htd & _) Hv Hlc Hlt Hrest params.
  change (2 ^ 31 - 1) with 2147483647 in *. unfold INT_MAX in *.
  subst params. unfold ProjectionCalibrate.
  rewrite getVersionOfCalibration_blob. cbn [bind].
  change (memcmp valid_tag [Byte.x14; Byte.x0a]) with 0.
  cbn [Z.eqb]. rewrite Hv. cbn [Z.eqb IVCAM_MIN_SUPPORTED_VERSION Pos.eqb].
  fold sizeCCP sizeTD.
  unfold memcpy, memset, SIZE_OF_CALIB_HEADER_BYTES.
  rewrite load_bytes_ok by (cbn [List.length]; lia).
  change (Z.to_nat (4 + 4)) with 8%nat. cbn [skipn bind].
  rewrite store_bytes_whole by (rewrite length_firstn; lia).
  cbn [bind].
  rewrite load_bytes_ok by (cbn [List.length]; lia).
  change (Z.to_nat 4) with 4%nat. cbn [skipn firstn bind].
  rewrite store_bytes_ok by (cbn [List.length]; lia).
  cbn [bind Z.to_nat firstn app List.length Nat.add].
  rewrite to_size_t_small by lia.
  replace (0 <=? sizeTD - 4) with true by (symmetry; apply Z.leb_le; lia).
  rewrite store_bytes_ok
    by (cbn [List.length]; rewrite ?repeat_length, ?length_skipn; lia).
  change (Z.to_nat 4) with 4%nat. cbn [firstn app].
  rewrite skipn_all2
    by (cbn [List.length]; rewrite ?repeat_length, ?length_skipn; lia).
  rewrite app_nil_r.
  eexists. split; [reflexivity|]. cbn [calprms_obj TesterData calls].
  repeat split.
Qed.

(** C4 (amended): on a blob with the valid tag and a BCD version above 13,
    received with a length of at least 4, the decoder fills the versioned
    struct behind its leading integer field with the first
    [min(sizeof(versioned struct), len) - 4] bytes of the blob (the rest of
    the struct stays zero), copies the parameter member into the object
    behind [calprms] and hands it to [buildParameters], builds the tester
    data from the 4 header bytes followed by the bytes at offset 512 + 4 of
    the blob, and calls [InitializeThermalData] on its two members. *)
Theorem ProjectionCalibrate_versioned_layout
  (p0 p1 p2 p3 v0 v1 : byte) (rest : buffer) (len : Z)
  (calprms TesterData0 : buffer) :
  layout_ok L ->
  13 < byte.unsigned v0 * 10 + byte.unsigned v1 ->
  4 <= len <= INT_MAX ->
  Z.of_nat (List.length calprms) = sizeCCP ->
  Z.of_nat (List.length TesterData0) = sizeTD ->
  let blob := Byte.x14 :: Byte.x0a :: v0 :: v1 :: rest in
  let size := Z.min sizeCCPV len in
  size - 4 <= Z.of_nat (List.length blob) ->
  512 + 4 + (sizeTD - 4) <= Z.of_nat (List.length blob) ->
  exists st,
    ProjectionCalibrate L (p0 :: p1 :: p2 :: p3 :: blob) len calprms TesterData0
    = Some st
    /\ CalibrationData st
       = zeros 4 ++ firstn (Z.to_nat (size - 4)) blob ++ zeros (sizeCCPV - size)
    /\ calprms_obj st
       = firstn (Z.to_nat sizeCCP)
           (skipn (Z.to_nat (offsetof_CalibrationParameters L))
              (CalibrationData st))
    /\ TesterData st
       = firstn 4 blob ++ firstn (Z.to_nat (sizeTD - 4)) (skipn (512 + 4) blob)
    /\ calls st
       = [buildParameters_struct (calprms_obj st);
          InitializeThermalData
            (firstn (Z.to_nat (sizeof_IVCAMTemperatureData L))
               (skipn (Z.to_nat (offsetof_TemperatureData L)) (TesterData st)))
            (firstn (Z.to_nat (sizeof_IVCAMThermalLoopParams L))
               (skipn (Z.to_nat (offsetof_ThermalLoopParams L)) (TesterData st)))].
Proof.
  intros (Hccp & Hoff & Hin & Hmax & Htd & Hto & Hts & Htin & Hlo & Hls & Hlin)
    Hv Hlen Hlc Hlt blob size Hsz Htail.
  unfold INT_MAX in *. change (2 ^ 31 - 1) with 2147483647 in *.
  fold sizeCCP sizeCCPV sizeTD in Hccp, Hoff, Hin, Hmax, Htd, Htin, Hlin.
  assert (Hsize : to_int (if sizeCCPV >? to_size_t len
                          then to_size_t len else sizeCCPV) = size).
  { rewrite to_size_t_small by lia. subst size.
    destruct (Z.gtb_spec sizeCCPV len); rewrite to_int_small; lia. }
  assert (Hs4 : 4 <= size) by (subst size; lia).
  unfold ProjectionCalibrate. subst blob.
  rewrite getVersionOfCalibration_blob. cbn [bind].
  change (memcmp valid_tag [Byte.x14; Byte.x0a]) with 0. cbn [Z.eqb].
  unfold IVCAM_MIN_SUPPORTED_VERSION.
  destruct (Z.eqb_spec (byte.unsigned v0 * 10 + byte.unsigned v1) 13); [lia|].
  destruct (Z.gtb_spec (byte.unsigned v0 * 10 + byte.unsigned v1) 13); [|lia].
  fold sizeCCP sizeCCPV sizeTD. rewrite Hsize.
  unfold fixWithVersionInfo, memcpy, SIZE_OF_CALIB_HEADER_BYTES,
    SIZE_OF_CALIB_PARAM_BYTES.
  rewrite (to_size_t_small size), (to_size_t_small (size - 4)),
    (to_size_t_small (sizeTD - 4)) by lia.
  cbn [List.length] in Hsz, Htail.
  (* the versioned struct *)
  rewrite load_bytes_ok by (cbn [List.length]; lia).
  change (Z.to_nat 4) with 4%nat. cbn [skipn bind].
  set (blob := Byte.x14 :: Byte.x0a :: v0 :: v1 :: rest) in *.
  assert (Hlb : List.length (firstn (Z.to_nat (size - 4)) blob)
                = Z.to_nat (size - 4))
    by (rewrite length_firstn; subst blob; cbn [List.length]; lia).
  unfold zeros at 1.
  rewrite store_bytes_ok by (rewrite ?repeat_length, ?Hlb; lia).
  change (Z.to_nat 4) with 4%nat.
  rewrite firstn_repeat_le, skipn_repeat, Hlb by lia.
  replace (Z.to_nat sizeCCPV - (4 + Z.to_nat (size - 4)))%nat
    with (Z.to_nat (sizeCCPV - size)) by lia.
  change (repeat Byte.x00 4) with (zeros 4).
  fold (zeros (sizeCCPV - size)).
  set (cd := zeros 4 ++ firstn (Z.to_nat (size - 4)) blob
             ++ zeros (sizeCCPV - size)).
  assert (Hcd : Z.of_nat (List.length cd) = sizeCCPV).
  { subst cd. unfold zeros. rewrite !length_app, !repeat_length, Hlb. lia. }
  cbn [bind].
  (* the parameter member *)
  rewrite load_bytes_ok by lia. cbn [bind].
  rewrite store_bytes_whole by (rewrite length_firstn, length_skipn; lia).
  cbn [bind].
  (* the tester data *)
  rewrite load_bytes_ok by (subst blob; cbn [List.length]; lia).
  change (Z.to_nat 4) with 4%nat. cbn [skipn bind].
  assert (Hh : List.length (firstn 4 blob) = 4%nat) by reflexivity.
  rewrite store_bytes_ok by (rewrite ?Hh; lia).
  rewrite Hh. change (Z.to_nat 0) with 0%nat.
  rewrite firstn_O. cbn [bind app Nat.add].
  set (old := skipn 4 TesterData0).
  assert (Ho : List.length old = (List.length TesterData0 - 4)%nat)
    by apply length_skipn.
  rewrite load_bytes_ok by (subst blob; cbn [List.length]; lia).
  change (Z.to_nat (4 + (512 + 4))) with (4 + (512 + 4))%nat.
  rewrite <- (skipn_skipn (512 + 4) 4). cbn [skipn bind].
  fold blob.
  set (tail := firstn (Z.to_nat (sizeTD - 4)) (skipn (512 + 4) blob)).
  assert (Ht : List.length tail = Z.to_nat (sizeTD - 4)).
  { subst tail. rewrite length_firstn, length_skipn.
    subst blob. cbn [List.length]. lia. }
  rewrite store_bytes_ok
    by (rewrite ?Ht, ?length_app, ?Hh, ?Ho; lia).
  change (Z.to_nat 4) with 4%nat.
  change (firstn 4 (firstn 4 blob ++ old)) with (firstn 4 blob).
  change (skipn (4 + List.length tail) (firstn 4 blob ++ old))
    with (skipn (List.length tail) old).
  rewrite skipn_all2 by (rewrite Ht, Ho; lia).
  rewrite app_nil_r.
  assert (Htd' : Z.of_nat (List.length (firstn 4 blob ++ tail)) = sizeTD)
    by (rewrite length_app, Hh, Ht; lia).
  cbn [bind]. rewrite !load_bytes_ok by lia. cbn [bind].
  eexists. split; [reflexivity|]. cbn [calprms_obj CalibrationData TesterData calls].
  repeat split.
Qed.

End DecoderFacts.

(** ** Transport Executor *)

Ltac zcmp :=
  repeat match goal with
    | |- context [?a >? ?b] => rewrite (Z.gtb_ltb a b)
    | |- context [?a <? ?b] =>
        first [ replace (a <? b) with true by (symmetry; apply Z.ltb_lt; lia)
              | replace (a <? b) with false by (symmetry; apply Z.ltb_ge; lia) ]
    | |- context [?a =? ?b] =>
        first [ replace (a =? b) with true by (symmetry; apply Z.eqb_eq; lia)
              | replace (a =? b) with false by (symmetry; apply Z.eqb_neq; lia) ]
    end.

Lemma load_u32_head (b : buffer) :
  4 <= Z.of_nat (List.length b) ->
  load_u32 b 0 = Some (le_combine (firstn 4 b)).
Proof.
  intros H. unfold load_u32. now rewrite load_bytes_ok by lia.
Qed.

Lemma memcpy_prefix (dst src : buffer) (n : Z) :
  0 <= n -> n <= Z.of_nat (List.length src) -> n <= Z.of_nat (List.length dst) ->
  memcpy dst 0 src 0 n
  = Some (firstn (Z.to_nat n) src ++ skipn (Z.to_nat n) dst).
Proof.
  intros Hn Hs Hd. unfold memcpy. rewrite load_bytes_ok by lia.
  change (Z.to_nat 0) with 0%nat. cbn [skipn bind].
  assert (Hl : List.length (firstn (Z.to_nat n) src) = Z.to_nat n)
    by (rewrite length_firstn; lia).
  rewrite store_bytes_ok by (rewrite ?Hl; lia).
  change (Z.to_nat 0) with 0%nat. now rewrite Hl.
Qed.

Section ExecutorFacts.

Variables (dev : Device) (out : buffer) (outSize op : Z).

(** Every return after a successful OUT transfer releases the lock once. *)
Lemma ExecuteUSBCommand_unlocks_after_out (in_ : option buffer) (inSize r : Z) :
  0 <= out_ret dev ->
  let e := ExecuteUSBCommand dev false out outSize op in_ inSize in
  result e = Returned r ->
  usbMutex e = false /\ count_unlock (trace e) = 1%nat.
Proof.
  intros Ho e. subst e. unfold ExecuteUSBCommand. cbn [negb]. zcmp.
  destruct in_ as [inb|]; [|now cbn].
  destruct (inSize =? 0); cbn [negb]; [now cbn|].
  destruct (in_transferred dev <? to_int 4); [now cbn|].
  destruct (load_u32 (in_buf dev) 0); [|discriminate].
  destruct (_ <? _); [now cbn|].
  destruct (memcpy _ _ _ _ _); [now cbn|discriminate].
Qed.

(** A call that finds the mutex held throws and releases nothing. *)
Lemma ExecuteUSBCommand_timeout (in_ : option buffer) (inSize : Z) :
  let e := ExecuteUSBCommand dev true out outSize op in_ inSize in
  result e = Thrown msg_mutex_timeout /\ usbMutex e = true
  /\ count_unlock (trace e) = 0%nat.
Proof. now cbn. Qed.

(** C9: on the buffer-too-small exit (a response of at least 4 bytes,
    longer than [(int)inSize]) the first 4 bytes of the response have
    already been stored in [op]; the caller's buffer and [inSize] are what
    they were, and the call returns -1. *)
Theorem ExecuteUSBCommand_too_small_has_written_op (inb : buffer) (inSize : Z) :
  0 <= out_ret dev ->
  inSize <> 0 ->
  4 <= Z.of_nat (List.length (in_buf dev)) ->
  4 <= in_transferred dev ->
  to_int inSize < in_transferred dev ->
  let e := ExecuteUSBCommand dev false out outSize op (Some inb) inSize in
  result e = Returned (-1)
  /\ In (printf msg_too_small) (trace e)
  /\ op_ref e = le_combine (firstn 4 (in_buf dev))
  /\ in_obj e = Some inb
  /\ inSize_ref e = inSize.
Proof.
  intros Ho Hs Hb Hx Hsmall e. subst e.
  unfold ExecuteUSBCommand. cbn [negb].
  change (to_int 4) with 4.
  rewrite load_u32_head by exact Hb. zcmp. cbn [negb].
  cbn [result trace op_ref in_obj inSize_ref].
  repeat split. rewrite !in_app_iff. right. now left.
Qed.

(** C8 (amended): what is compared with the caller's capacity is the
    length of the whole response, status word included.  A response longer
    than the capacity fails with the buffer-too-small message and -1, and
    neither the caller's buffer nor [inSize] is written; a response that
    fits is copied whole, status word first, and [inSize] becomes its
    length. *)
Theorem ExecuteUSBCommand_capacity_check (inb : buffer) (inSize : Z) :
  0 <= out_ret dev ->
  0 < inSize <= INT_MAX ->
  4 <= in_transferred dev <= Z.of_nat (List.length (in_buf dev)) ->
  let e := ExecuteUSBCommand dev false out outSize op (Some inb) inSize in
  (inSize < in_transferred dev ->
     result e = Returned (-1)
     /\ In (printf msg_too_small) (trace e)
     /\ in_obj e = Some inb
     /\ inSize_ref e = inSize)
  /\ (in_transferred dev <= inSize ->
      in_transferred dev <= Z.of_nat (List.length inb) ->
      result e = Returned (in_ret dev)
      /\ ~ In (printf msg_too_small) (trace e)
      /\ in_obj e
         = Some (firstn (Z.to_nat (in_transferred dev)) (in_buf dev)
                 ++ skipn (Z.to_nat (in_transferred dev)) inb)
      /\ inSize_ref e = in_transferred dev).
Proof.
  intros Ho Hs Hx e. subst e.
  unfold INT_MAX in Hs. change (2 ^ 31 - 1) with 2147483647 in Hs.
  unfold ExecuteUSBCommand. cbn [negb].
  change (to_int 4) with 4. rewrite (to_int_small inSize) by lia.
  rewrite load_u32_head by lia.
  split.
  - intros Hsmall. zcmp. cbn [negb result trace in_obj inSize_ref].
    repeat split. rewrite !in_app_iff. right. now left.
  - intros Hfit Hcap. zcmp. cbn [negb].
    rewrite to_size_t_small by lia.
    rewrite memcpy_prefix by lia.
    cbn [result trace in_obj inSize_ref]. repeat split.
    cbn. intros [H|[H|[H|[H|[]]]]]; discriminate.
Qed.

(** C3 (amended): when the IN transfer returns exactly 4 bytes and the
    caller's capacity as the code compares it, [(int)inSize], is at least
    4, the call returns what the IN transfer returned and releases the
    lock; the 4 bytes are the status word stored in [op], and they are
    also copied to the start of the caller's buffer and counted: the
    reported size is 4.  Every capacity from 4 to [INT_MAX] is such a
    capacity. *)
Theorem ExecuteUSBCommand_status_only_response (inb : buffer) (inSize : Z) :
  0 <= out_ret dev ->
  4 <= to_int inSize ->
  in_transferred dev = 4 ->
  4 <= Z.of_nat (List.length (in_buf dev)) ->
  4 <= Z.of_nat (List.length inb) ->
  let e := ExecuteUSBCommand dev false out outSize op (Some inb) inSize in
  result e = Returned (in_ret dev)
  /\ usbMutex e = false
  /\ op_ref e = le_combine (firstn 4 (in_buf dev))
  /\ inSize_ref e = 4
  /\ in_obj e = Some (firstn 4 (in_buf dev) ++ skipn 4 inb).
Proof.
  intros Ho Hs Hx Hb Hi e. subst e.
  assert (Hnz : (inSize =? 0) = false).
  { apply Z.eqb_neq. intros ->. change (to_int 0) with 0 in Hs. lia. }
  unfold ExecuteUSBCommand. cbn [negb]. rewrite Hx, Hnz.
  change (to_int 4) with 4.
  rewrite load_u32_head by exact Hb. zcmp. cbn [negb].
  change (to_size_t 4) with 4.
  rewrite memcpy_prefix by lia.
  cbn [result usbMutex op_ref in_obj inSize_ref]. repeat split.
Qed.

End ExecutorFacts.

(** C1: a negative result of the OUT transfer is returned as it is, with
    the mutex still held and no [unlock] in the trace of the call: this
    exit does not release the lock it acquired. *)
Theorem ExecuteUSBCommand_out_failure_leaves_mutex_locked
  (p : positive) (ir ix : Z) (ib out : buffer) (outSize op : Z)
  (in_ : option buffer) (inSize : Z) :
  let dev := {| out_ret := Z.neg p; in_ret := ir;
                in_transferred := ix; in_buf := ib |} in
  let e := ExecuteUSBCommand dev false out outSize op in_ inSize in
  result e = Returned (Z.neg p)
  /\ usbMutex e = true
  /\ count_unlock (trace e) = 0%nat
  /\ result (ExecuteUSBCommand dev (usbMutex e) out outSize op in_ inSize)
     = Thrown msg_mutex_timeout.
Proof. cbn. repeat split. Qed.

(** ** Calibration Fetcher *)

(** C2: a negative result of the OUT transfer other than -1 does not make
    the fetcher throw: it returns normally, the caller's buffer and
    [bytesReturned] are what they were, and the mutex stays held. *)
Theorem GetCalibrationRawData_ignores_out_failure
  (dev : Device) (data : buffer) (bytesReturned : Z) :
  out_ret dev < 0 ->
  out_ret dev <> -1 ->
  let f := GetCalibrationRawData dev false (Some data) bytesReturned in
  fetch_result f = Returned tt
  /\ fetch_data f = Some data
  /\ fetch_bytesReturned f = bytesReturned
  /\ fetch_usbMutex f = true.
Proof.
  intros Hneg Hne f. subst f. unfold GetCalibrationRawData.
  change (PrepareUSBCommand _ _ _ _ _ _ _ _ _)
    with (Some {| prep_ret := 24;
                  prep_request :=
                    le_split 2 20 ++ le_split 2 IVCAM_MONITOR_MAGIC_NUMBER
                    ++ le_split 4 GetCalibrationTable ++ zeros 16;
                  prep_requestSize := 24 |}).
  cbn [prep_ret prep_request prep_requestSize].
  change (24 >? 0) with true. cbv iota.
  unfold ExecuteUSBCommand. cbn [negb]. zcmp.
  cbn [result usbMutex in_obj inSize_ref fetch_result fetch_data
       fetch_bytesReturned fetch_usbMutex].
  zcmp. cbn [negb]. repeat split.
Qed.

(** The one OUT failure the fetcher does notice is -1 (LIBUSB_ERROR_IO). *)
Lemma GetCalibrationRawData_throws_on_minus_one
  (dev : Device) (data : buffer) (bytesReturned : Z) :
  out_ret dev = -1 ->
  fetch_result (GetCalibrationRawData dev false (Some data) bytesReturned)
  = Thrown msg_calibration_failed.
Proof.
  intros Hret. unfold GetCalibrationRawData.
  change (PrepareUSBCommand _ _ _ _ _ _ _ _ _)
    with (Some {| prep_ret := 24;
                  prep_request :=
                    le_split 2 20 ++ le_split 2 IVCAM_MONITOR_MAGIC_NUMBER
                    ++ le_split 4 GetCalibrationTable ++ zeros 16;
                  prep_requestSize := 24 |}).
  cbn [prep_ret prep_request prep_requestSize].
  change (24 >? 0) with true. cbv iota.
  unfold ExecuteUSBCommand. cbn [negb]. rewrite Hret.
  reflexivity.
Qed.

(** ** Command Framer *)

Lemma store_bytes_Some (b : buffer) (off : Z) (bs : list byte) :
  0 <= off -> off + Z.of_nat (List.length bs) <= Z.of_nat (List.length b) ->
  exists b', store_bytes b off bs = Some b' /\ List.length b' = List.length b.
Proof.
  intros Ho Hb. rewrite store_bytes_ok by assumption.
  eexists. split; [reflexivity|].
  rewrite !length_app, length_firstn, length_skipn. lia.
Qed.

Ltac store_step r :=
  match goal with
  | |- context [store_bytes ?b ?off ?bs] =>
      let E := fresh "E" in
      let Hl := fresh "Hl" in
      destruct (store_bytes_Some b off bs) as (r & E & Hl);
      [ lia
      | rewrite ?length_le_split; lia
      | rewrite E; cbn [bind] ]
  end.

Lemma load_u16_store_u16 (b b' : buffer) (v : Z) :
  store_u16 b 0 v = Some b' -> load_u16 b' 0 = Some (v mod 2 ^ 16).
Proof.
  unfold store_u16, load_u16. intros E.
  apply load_store_same in E. rewrite length_le_split in E.
  change (Z.of_nat 2) with 2 in E. rewrite E. cbn [bind].
  now rewrite le_combine_split.
Qed.

(** C7 (amended): with a capacity of at least the 24 header bytes, a
    payload that fits behind the header in the request buffer, and a total
    whose length field fits 16 bits, the framer returns the total number
    of bytes written, 24 plus the payload length, which is at least 24, and
    the 16-bit field at offset 0 holds the total minus 4.  With a capacity
    below 24 it returns 0 and writes nothing. *)
Theorem PrepareUSBCommand_length_field
  (request : buffer) (requestSize op p1 p2 p3 p4 : Z)
  (data : buffer) (dataLength : Z) :
  (IVCAM_MONITOR_HEADER_SIZE <= requestSize ->
   0 <= dataLength <= Z.of_nat (List.length data) ->
   IVCAM_MONITOR_HEADER_SIZE + dataLength <= Z.of_nat (List.length request) ->
   IVCAM_MONITOR_HEADER_SIZE + dataLength - 4 < 2 ^ 16 ->
   let total := IVCAM_MONITOR_HEADER_SIZE + dataLength in
   exists request',
     PrepareUSBCommand request requestSize op p1 p2 p3 p4 data dataLength
     = Some {| prep_ret := total; prep_request := request';
               prep_requestSize := total |}
     /\ load_u16 request' 0 = Some (total - 4)
     /\ IVCAM_MONITOR_HEADER_SIZE <= total)
  /\ (requestSize < IVCAM_MONITOR_HEADER_SIZE ->
      PrepareUSBCommand request requestSize op p1 p2 p3 p4 data dataLength
      = Some {| prep_ret := 0; prep_request := request;
                prep_requestSize := requestSize |}).
Proof.
  unfold PrepareUSBCommand.
  change IVCAM_MONITOR_HEADER_SIZE with 24. change (2 ^ 16) with 65536.
  split.
  - intros Hcap Hd Hfit H16. zcmp.
    unfold store_u32. unfold store_u16 at 1.
    cbv zeta.
    change (2 + 2 + 4 + 4 + 4 + 4 + 4) with 24.
    change (2 + 2 + 4 + 4 + 4 + 4) with 20.
    change (2 + 2 + 4 + 4 + 4) with 16.
    change (2 + 2 + 4 + 4) with 12.
    change (2 + 2 + 4) with 8.
    change (2 + 2) with 4.
    store_step m0. store_step m1. store_step m2. store_step m3.
    store_step m4. store_step m5.
    destruct (Z.eqb_spec dataLength 0) as [->|Hnz]; cbn [bind].
    + change (to_uint16 (to_size_t 24 - 4)) with 20.
      destruct (store_u16 m5 0 20) as [r'|] eqn:Ef.
      * cbn [bind]. exists r'. change (to_size_t 24) with 24.
        split; [reflexivity|]. split; [|lia].
        now rewrite (load_u16_store_u16 _ _ _ Ef).
      * exfalso. unfold store_u16 in Ef.
        rewrite store_bytes_ok in Ef by (rewrite ?length_le_split; lia).
        discriminate.
    + unfold memcpy. rewrite load_bytes_ok by lia.
      change (Z.to_nat 0) with 0%nat. cbn [skipn bind].
      assert (Hld : List.length (firstn (Z.to_nat dataLength) data)
                    = Z.to_nat dataLength)
        by (rewrite length_firstn; lia).
      destruct (store_bytes_Some m5 24 (firstn (Z.to_nat dataLength) data))
        as (m6 & Ef & Hlf); [lia | rewrite Hld; lia |].
      rewrite Ef. cbn [bind].
      change (to_size_t 24) with 24.
      rewrite (to_int_small (24 + dataLength)) by lia.
      rewrite (to_size_t_small (24 + dataLength)) by lia.
      destruct (store_u16 m6 0 (to_uint16 (24 + dataLength - 4)))
        as [r'|] eqn:Eg.
      * cbn [bind]. exists r'. split; [reflexivity|]. split; [|lia].
        rewrite (load_u16_store_u16 _ _ _ Eg). unfold to_uint16.
        change (2 ^ 16) with 65536. rewrite Z.mod_mod by lia.
        now rewrite Z.mod_small by lia.
      * exfalso. unfold store_u16 in Eg.
        rewrite store_bytes_ok in Eg by (rewrite ?length_le_split; lia).
        discriminate.
  - intros Hsmall. now zcmp.
Qed.

(** ** Version bytes without a digit check *)

Lemma load_bytes_two (pre post : buffer) (t0 t1 : byte) :
  load_bytes (pre ++ t0 :: t1 :: post) (Z.of_nat (List.length pre)) 2
  = Some [t0; t1].
Proof.
  rewrite load_bytes_ok
    by (rewrite ?length_app; cbn [List.length]; lia).
  rewrite Nat2Z.id, skipn_app, skipn_all, Nat.sub_diag.
  reflexivity.
Qed.

(** C10: the BCD decoder returns [b0 * 10 + b1] for any two bytes, with no
    check that a byte is a decimal digit; the version of a blob whose tag
    is not {0x14, 0x0A} is 0; and a blob with the valid tag and version
    bytes {0x00, 0x00} has version 0 too, so the decoder does on it
    exactly what it does on a blob with an invalid tag: it writes nothing
    and calls nothing. *)
Theorem zero_version_is_decoded_like_invalid_tag :
  (forall (pre post : buffer) (b0 b1 : byte),
      bcdtoint (pre ++ b0 :: b1 :: post) (Z.of_nat (List.length pre)) 2
      = Some (byte.unsigned b0 * 10 + byte.unsigned b1))
  /\ (forall (pre post : buffer) (t0 t1 : byte) (version : Z),
         [t0; t1] <> valid_tag ->
         getVersionOfCalibration (pre ++ t0 :: t1 :: post)
           (Z.of_nat (List.length pre)) version
         = Some 0)
  /\ (forall (L : Layout) (p0 p1 p2 p3 : byte) (rest : buffer) (len : Z)
             (calprms TesterData0 : buffer),
         let zero_version :=
           p0 :: p1 :: p2 :: p3
           :: Byte.x14 :: Byte.x0a :: Byte.x00 :: Byte.x00 :: rest in
         getVersionOfCalibration zero_version 4 6 = Some 0
         /\ ProjectionCalibrate L zero_version len calprms TesterData0
            = Some {| calprms_obj := calprms;
                      CalibrationData :=
                        zeros (sizeof_CameraCalibrationParametersVersion L);
                      TesterData := TesterData0;
                      calls := [] |}
         /\ forall t0 t1 v0 v1 : byte,
             [t0; t1] <> valid_tag ->
             ProjectionCalibrate L
               (p0 :: p1 :: p2 :: p3 :: t0 :: t1 :: v0 :: v1 :: rest)
               len calprms TesterData0
             = ProjectionCalibrate L zero_version len calprms TesterData0).
Proof.
  split; [|split].
  - intros pre post b0 b1. apply bcdtoint_two; [lia| |].
    + now rewrite Nat2Z.id, nth_error_app2, Nat.sub_diag by lia.
    + replace (Z.to_nat (Z.of_nat (List.length pre) + 1))
        with (S (List.length pre)) by lia.
      rewrite nth_error_app2 by lia.
      now replace (S (List.length pre) - List.length pre)%nat with 1%nat by lia.
  - intros pre post t0 t1 version Htag. unfold getVersionOfCalibration.
    rewrite load_bytes_two. cbn [bind].
    destruct (memcmp valid_tag [t0; t1] =? 0) eqn:E; [|reflexivity].
    apply valid_tag_memcmp in E. contradiction.
  - intros L p0 p1 p2 p3 rest len calprms TesterData0 zero_version.
    subst zero_version. split; [|split].
    + apply (getVersionOfCalibration_blob p0 p1 p2 p3 Byte.x14 Byte.x0a
               Byte.x00 Byte.x00 rest).
    + now apply ProjectionCalibrate_low_version.
    + intros t0 t1 v0 v1 Htag.
      rewrite !ProjectionCalibrate_low_version; [reflexivity|reflexivity|].
      destruct (memcmp valid_tag [t0; t1] =? 0) eqn:E; [|lia].
      apply valid_tag_memcmp in E. contradiction.
Qed.

Lemma zero_version_is_decoded_like_invalid_tag_witness :
  getVersionOfCalibration (raw_transfer Byte.x00 Byte.x00 Byte.x01 Byte.x04 Byte.xff)
    4 6 = Some 0.
Proof.
  apply (proj1 (proj2 zero_version_is_decoded_like_invalid_tag)
           [Byte.x00; Byte.x00; Byte.x00; Byte.x00]
           (Byte.x01 :: Byte.x04 :: repeat Byte.xff 992)
           Byte.x00 Byte.x00 6).
  discriminate.
Defined.

(** ** The theorems at concrete inputs *)

Lemma sample_layout_ok : layout_ok sample_layout.
Proof. unfold layout_ok, sample_layout, INT_MAX. cbn. lia. Qed.

Lemma ProjectionCalibrate_rejected_blob_keeps_output_witness :
  exists st,
    ProjectionCalibrate sample_layout
      (raw_transfer Byte.x00 Byte.x00 Byte.x01 Byte.x04 Byte.xff) 1000
      (repeat Byte.x55 448) (zeros 108)
    = Some st
    /\ calprms_obj st = repeat Byte.x55 448
    /\ calls st = [].
Proof.
  apply (ProjectionCalibrate_rejected_blob_keeps_output sample_layout
           Byte.x00 Byte.x00 Byte.x00 Byte.x00
           Byte.x00 Byte.x00 Byte.x01 Byte.x04 (repeat Byte.xff 992)).
  left. discriminate.
Defined.

Lemma ProjectionCalibrate_minimum_version_witness :
  exists st,
    ProjectionCalibrate sample_layout
      (raw_transfer Byte.x14 Byte.x0a Byte.x01 Byte.x03 Byte.xff) 1000
      (zeros 448) (repeat Byte.x55 108)
    = Some st
    /\ calprms_obj st = repeat Byte.xff 448
    /\ TesterData st
       = [Byte.x14; Byte.x0a; Byte.x01; Byte.x03] ++ zeros 104
    /\ calls st
       = [buildParameters_array
            (Byte.x14 :: Byte.x0a :: Byte.x01 :: Byte.x03
             :: repeat Byte.xff 992) 100]
    /\ existsb is_InitializeThermalData (calls st) = false.
Proof.
  apply (ProjectionCalibrate_minimum_version sample_layout
           Byte.x00 Byte.x00 Byte.x00 Byte.x00 Byte.x01 Byte.x03
           (repeat Byte.xff 992) 1000 (zeros 448) (repeat Byte.x55 108)).
  - exact sample_layout_ok.
  - reflexivity.
  - reflexivity.
  - reflexivity.
  - vm_compute. discriminate.
Defined.

Lemma ProjectionCalibrate_versioned_layout_witness :
  exists st,
    ProjectionCalibrate sample_layout
      (raw_transfer Byte.x14 Byte.x0a Byte.x01 Byte.x04 Byte.xff) 100
      (zeros 448) (repeat Byte.x55 108)
    = Some st
    /\ CalibrationData st
       = zeros 4 ++ [Byte.x14; Byte.x0a; Byte.x01; Byte.x04]
         ++ repeat Byte.xff 92 ++ zeros 356
    /\ calprms_obj st = repeat Byte.xff 92 ++ zeros 356
    /\ TesterData st
       = [Byte.x14; Byte.x0a; Byte.x01; Byte.x04] ++ repeat Byte.xff 104
    /\ calls st
       = [buildParameters_struct (calprms_obj st);
          InitializeThermalData (repeat Byte.xff 12) (repeat Byte.xff 92)].
Proof.
  edestruct (ProjectionCalibrate_versioned_layout sample_layout
           Byte.x00 Byte.x00 Byte.x00 Byte.x00 Byte.x01 Byte.x04
           (repeat Byte.xff 992) 100 (zeros 448) (repeat Byte.x55 108))
    as (st & E & Hcd & Hcp & Htd & Hc).
  - exact sample_layout_ok.
  - vm_compute. reflexivity.
  - unfold INT_MAX. lia.
  - reflexivity.
  - reflexivity.
  - vm_compute. discriminate.
  - vm_compute. discriminate.
  - exists st. split; [exact E|].
    rewrite Hc, Hcp, Htd, Hcd. vm_compute. repeat split.
Defined.

(** What the claim C4 says of the copy into the versioned struct, at a
    transfer of 100 bytes: 100 blob bytes behind the leading integer would
    reach struct offset 103.  The decoder copies 96, so struct byte 100
    and byte 92 of the parameters keep the zero of the [memset]. *)
Lemma versioned_copy_stops_four_bytes_earlier :
  let raw := raw_transfer Byte.x14 Byte.x0a Byte.x01 Byte.x04 Byte.xff in
  exists st cd,
    ProjectionCalibrate sample_layout raw 100 (zeros 448) (zeros 108) = Some st
    /\ fixWithVersionInfo_as_specified (zeros 456) (Z.min 456 100) raw 4 = Some cd
    /\ nth_error cd 100 = Some Byte.xff
    /\ nth_error (CalibrationData st) 100 = Some Byte.x00
    /\ nth_error (calprms_obj st) 92 = Some Byte.x00
    /\ CalibrationData st <> cd.
Proof.
  eexists. eexists.
  split; [vm_compute; reflexivity|].
  split; [vm_compute; reflexivity|].
  split; [reflexivity|]. split; [reflexivity|]. split; [reflexivity|].
  intros H. apply (f_equal (fun l => nth_error l 100)) in H.
  vm_compute in H. discriminate.
Qed.

Lemma ExecuteUSBCommand_too_small_has_written_op_witness :
  let e := ExecuteUSBCommand (dev_answers 10) false [] 0 0
             (Some (repeat Byte.x55 8)) 8 in
  result e = Returned (-1)
  /\ In (printf msg_too_small) (trace e)
  /\ op_ref e = le_combine (firstn 4 (in_buf (dev_answers 10)))
  /\ in_obj e = Some (repeat Byte.x55 8)
  /\ inSize_ref e = 8.
Proof.
  apply (ExecuteUSBCommand_too_small_has_written_op (dev_answers 10) [] 0 0
           (repeat Byte.x55 8) 8).
  - cbn. lia.
  - discriminate.
  - vm_compute. discriminate.
  - cbn. lia.
  - vm_compute. reflexivity.
Defined.

Lemma ExecuteUSBCommand_capacity_check_witness :
  let e := ExecuteUSBCommand (dev_answers 8) false [] 0 0
             (Some (repeat Byte.x55 8)) 8 in
  result e = Returned 0
  /\ ~ In (printf msg_too_small) (trace e)
  /\ in_obj e = Some (le_split 4 1 ++ repeat Byte.xaa 4)
  /\ inSize_ref e = 8.
Proof.
  apply (ExecuteUSBCommand_capacity_check (dev_answers 8) [] 0 0
           (repeat Byte.x55 8) 8).
  - cbn. lia.
  - unfold INT_MAX. lia.
  - split; [cbn; lia | vm_compute; discriminate].
  - cbn. lia.
  - vm_compute. discriminate.
Defined.

(** Claim C8 at a response of 10 bytes and a capacity of 8: the payload,
    6 bytes, fits the capacity, and the call is rejected all the same. *)
Lemma fitting_payload_is_rejected :
  let e := ExecuteUSBCommand (dev_answers 10) false [] 0 0
             (Some (repeat Byte.x55 8)) 8 in
  in_transferred (dev_answers 10) - 4 <= 8
  /\ result e = Returned (-1)
  /\ trace e
     = [try_lock_for 3000 true;
        libusb_bulk_transfer IVCAM_MONITOR_ENDPOINT_OUT [] 0 1000;
        libusb_bulk_transfer IVCAM_MONITOR_ENDPOINT_IN [] 1024 1000;
        printf msg_too_small; unlock].
Proof. split; [cbn; lia|]. split; reflexivity. Qed.

Lemma ExecuteUSBCommand_status_only_response_witness :
  let e := ExecuteUSBCommand (dev_answers 4) false [] 0 0
             (Some (repeat Byte.x55 8)) 8 in
  result e = Returned 0
  /\ usbMutex e = false
  /\ op_ref e = 1
  /\ inSize_ref e = 4
  /\ in_obj e = Some (le_split 4 1 ++ repeat Byte.x55 4).
Proof.
  apply (ExecuteUSBCommand_status_only_response (dev_answers 4) [] 0 0
           (repeat Byte.x55 8) 8).
  - cbn. lia.
  - vm_compute. discriminate.
  - reflexivity.
  - vm_compute. discriminate.
  - vm_compute. discriminate.
Defined.

(** Claim C3 at a response of exactly 4 bytes: the reported size is 4, not
    0, and the status word is in the caller's buffer. *)
Lemma status_only_response_reports_four_bytes :
  let e := ExecuteUSBCommand (dev_answers 4) false [] 0 0
             (Some (repeat Byte.x55 8)) 8 in
  in_transferred (dev_answers 4) = 4
  /\ result e = Returned 0
  /\ inSize_ref e = 4
  /\ inSize_ref e <> 0
  /\ in_obj e
     = Some ([Byte.x01; Byte.x00; Byte.x00; Byte.x00] ++ repeat Byte.x55 4).
Proof. repeat split. discriminate. Qed.

(** The capacities C3 (amended) speaks of: every capacity from 4 to
    [INT_MAX] converts to an [int] of at least 4. *)
Lemma capacity_within_int (inSize : Z) :
  4 <= inSize <= INT_MAX -> 4 <= to_int inSize.
Proof.
  unfold INT_MAX. change (2 ^ 31 - 1) with 2147483647.
  intros H. rewrite to_int_small; lia.
Qed.

(** A capacity of [2 ^ 31] converts to a negative [int]: a response of
    exactly 4 bytes is then rejected as too long for the buffer. *)
Lemma status_only_response_rejected_beyond_int :
  let e := ExecuteUSBCommand (dev_answers 4) false [] 0 0
             (Some (repeat Byte.x55 8)) (2 ^ 31) in
  to_int (2 ^ 31) = - 2 ^ 31
  /\ result e = Returned (-1)
  /\ In (printf msg_too_small) (trace e)
  /\ inSize_ref e = 2 ^ 31.
Proof.
  repeat split. cbn. right. right. right. now left.
Qed.

Lemma GetCalibrationRawData_ignores_out_failure_witness :
  let f := GetCalibrationRawData dev_out_timeout false
             (Some (zeros HW_MONITOR_BUFFER_SIZE)) HW_MONITOR_BUFFER_SIZE in
  fetch_result f = Returned tt
  /\ fetch_data f = Some (zeros HW_MONITOR_BUFFER_SIZE)
  /\ fetch_bytesReturned f = HW_MONITOR_BUFFER_SIZE
  /\ fetch_usbMutex f = true.
Proof.
  apply (GetCalibrationRawData_ignores_out_failure dev_out_timeout
           (zeros HW_MONITOR_BUFFER_SIZE) HW_MONITOR_BUFFER_SIZE).
  - cbn. lia.
  - cbn. lia.
Defined.

Lemma PrepareUSBCommand_length_field_witness :
  exists request',
    PrepareUSBCommand (zeros 32) 32 GetCalibrationTable 0 0 0 0
      (repeat Byte.xaa 8) 8
    = Some {| prep_ret := 32; prep_request := request';
              prep_requestSize := 32 |}
    /\ load_u16 request' 0 = Some 28
    /\ IVCAM_MONITOR_HEADER_SIZE <= 32.
Proof.
  apply (proj1 (PrepareUSBCommand_length_field (zeros 32) 32
                  GetCalibrationTable 0 0 0 0 (repeat Byte.xaa 8) 8)).
  - unfold IVCAM_MONITOR_HEADER_SIZE. lia.
  - split; [lia | vm_compute; discriminate].
  - vm_compute. discriminate.
  - reflexivity.
Defined.

(** Claim C7 at a capacity of 65540 bytes and a payload of 65516: the
    total is 65540, the 16-bit field holds 0, not 65536. *)
Lemma length_field_wraps_at_16_bits :
  option_map
    (fun p => (prep_ret p, prep_requestSize p, load_u16 (prep_request p) 0))
    (PrepareUSBCommand (zeros 65540) 65540 GetCalibrationTable 0 0 0 0
       (zeros 65516) 65516)
  = Some (65540, 65540, Some 0)
  /\ 0 <> 65540 - 4.
Proof. split; [vm_compute; reflexivity | lia]. Qed.

(** * Further properties *)

(** ** Stores and loads at different places *)

Lemma store_bytes_nth_error (b b' : buffer) (off : Z) (bs : list byte) (i : nat) :
  store_bytes b off bs = Some b' ->
  nth_error b' i
  = if (Z.to_nat off <=? i)%nat && (i <? Z.to_nat off + List.length bs)%nat
    then nth_error bs (i - Z.to_nat off)
    else nth_error b i.
Proof.
  unfold store_bytes. destruct (in_bounds _ _ _) eqn:B; [|discriminate].
  apply in_bounds_inv in B. intros [= <-].
  assert (Hf : List.length (firstn (Z.to_nat off) b) = Z.to_nat off)
    by (rewrite length_firstn; lia).
  rewrite nth_error_app, Hf.
  destruct (Nat.ltb_spec i (Z.to_nat off)) as [Hlt|Hge].
  - replace (Z.to_nat off <=? i)%nat with false
      by (symmetry; apply Nat.leb_gt; lia).
    cbn [andb]. rewrite nth_error_firstn.
    now replace (i <? Z.to_nat off)%nat with true
      by (symmetry; apply Nat.ltb_lt; lia).
  - replace (Z.to_nat off <=? i)%nat with true
      by (symmetry; apply Nat.leb_le; lia).
    cbn [andb]. rewrite nth_error_app.
    destruct (Nat.ltb_spec (i - Z.to_nat off) (List.length bs)) as [Hin|Hout].
    + now replace (i <? Z.to_nat off + List.length bs)%nat with true
        by (symmetry; apply Nat.ltb_lt; lia).
    + replace (i <? Z.to_nat off + List.length bs)%nat with false
        by (symmetry; apply Nat.ltb_ge; lia).
      rewrite nth_error_skipn. f_equal. lia.
Qed.

Lemma load_bytes_nth_error (b : buffer) (off n : Z) (bs : list byte) (i : nat) :
  load_bytes b off n = Some bs ->
  nth_error bs i
  = if (i <? Z.to_nat n)%nat then nth_error b (Z.to_nat off + i) else None.
Proof.
  unfold load_bytes. destruct (in_bounds _ _ _); [|discriminate].
  intros [= <-]. now rewrite nth_error_firstn, nth_error_skipn.
Qed.

(** A load sees nothing of a store to a range it does not meet. *)
Lemma load_store_disjoint (b b' : buffer) (off : Z) (bs : list byte) (o n : Z) :
  store_bytes b off bs = Some b' ->
  o + n <= off \/ off + Z.of_nat (List.length bs) <= o ->
  load_bytes b' o n = load_bytes b o n.
Proof.
  intros E Hd. pose proof (store_bytes_length _ _ _ _ E) as Hl.
  unfold load_bytes, in_bounds. rewrite Hl.
  destruct ((0 <=? o) && (0 <=? n) && (o + n <=? Z.of_nat (List.length b)))
    eqn:B; [|reflexivity].
  rewrite !andb_true_iff, !Z.leb_le in B. f_equal.
  apply nth_error_ext. intros i.
  rewrite !nth_error_firstn. destruct (Nat.ltb_spec i (Z.to_nat n)); [|reflexivity].
  rewrite !nth_error_skipn, (store_bytes_nth_error _ _ _ _ _ E).
  unfold store_bytes in E. destruct (in_bounds _ _ _) eqn:B'; [|discriminate].
  apply in_bounds_inv in B'.
  destruct ((Z.to_nat off <=? Z.to_nat o + i)%nat
            && (Z.to_nat o + i <? Z.to_nat off + List.length bs)%nat) eqn:C;
    [|reflexivity].
  rewrite andb_true_iff, Nat.leb_le, Nat.ltb_lt in C. lia.
Qed.

Lemma store_bytes_defined (b : buffer) (off : Z) (bs : list byte) (b' : buffer) :
  store_bytes b off bs = Some b' ->
  0 <= off /\ off + Z.of_nat (List.length bs) <= Z.of_nat (List.length b).
Proof.
  unfold store_bytes. destruct (in_bounds _ _ _) eqn:B; [|discriminate].
  apply in_bounds_inv in B. intros _. lia.
Qed.

Lemma load_bytes_defined (b : buffer) (off n : Z) (bs : list byte) :
  load_bytes b off n = Some bs ->
  0 <= off /\ 0 <= n /\ off + n <= Z.of_nat (List.length b)
  /\ bs = firstn (Z.to_nat n) (skipn (Z.to_nat off) b)
  /\ List.length bs = Z.to_nat n.
Proof.
  unfold load_bytes. destruct (in_bounds _ _ _) eqn:B; [|discriminate].
  apply in_bounds_inv in B. intros [= <-].
  rewrite length_firstn, length_skipn. repeat split; lia.
Qed.


(** ** Command Framer: the bytes it writes *)

Lemma store_bytes_nil (b b' : buffer) (off : Z) :
  store_bytes b off [] = Some b' -> b' = b.
Proof.
  unfold store_bytes. destruct (in_bounds _ _ _); [|discriminate].
  intros [= <-]. cbn [app List.length]. rewrite Nat.add_0_r.
  apply firstn_skipn.
Qed.

Lemma le_split_mod (n : nat) (v : Z) :
  le_split n (v mod 2 ^ (Z.of_nat n * 8)) = le_split n v.
Proof.
  rewrite <- le_combine_split.
  rewrite <- (length_le_split n v) at 1.
  apply split_le_combine.
Qed.

(** The stores [PrepareUSBCommand] performs, one after the other.  With
    no payload the [memcpy] is skipped, which leaves the buffer as a store
    of no bytes does. *)
Lemma PrepareUSBCommand_chain
  (request : buffer) (requestSize op p1 p2 p3 p4 : Z)
  (data : buffer) (dataLength : Z) :
  24 <= requestSize ->
  0 <= dataLength <= Z.of_nat (List.length data) ->
  24 + dataLength <= Z.of_nat (List.length request) ->
  24 + dataLength <= INT_MAX ->
  exists m0 m1 m2 m3 m4 m5 m6 r',
    store_bytes request 2 (le_split 2 IVCAM_MONITOR_MAGIC_NUMBER) = Some m0
    /\ store_bytes m0 4 (le_split 4 op) = Some m1
    /\ store_bytes m1 8 (le_split 4 p1) = Some m2
    /\ store_bytes m2 12 (le_split 4 p2) = Some m3
    /\ store_bytes m3 16 (le_split 4 p3) = Some m4
    /\ store_bytes m4 20 (le_split 4 p4) = Some m5
    /\ store_bytes m5 24 (firstn (Z.to_nat dataLength) data) = Some m6
    /\ store_bytes m6 0 (le_split 2 (24 + dataLength - 4)) = Some r'
    /\ PrepareUSBCommand request requestSize op p1 p2 p3 p4 data dataLength
       = Some {| prep_ret := 24 + dataLength; prep_request := r';
                 prep_requestSize := 24 + dataLength |}.
Proof.
  intros Hcap Hd Hfit Hmax.
  unfold INT_MAX in Hmax. change (2 ^ 31 - 1) with 2147483647 in Hmax.
  assert (Hld : List.length (firstn (Z.to_nat dataLength) data)
                = Z.to_nat dataLength)
    by (rewrite length_firstn; lia).
  destruct (store_bytes_Some request 2 (le_split 2 IVCAM_MONITOR_MAGIC_NUMBER))
    as (m0 & E0 & L0); [lia | rewrite length_le_split; lia |].
  destruct (store_bytes_Some m0 4 (le_split 4 op))
    as (m1 & E1 & L1); [lia | rewrite length_le_split; lia |].
  destruct (store_bytes_Some m1 8 (le_split 4 p1))
    as (m2 & E2 & L2); [lia | rewrite length_le_split; lia |].
  destruct (store_bytes_Some m2 12 (le_split 4 p2))
    as (m3 & E3 & L3); [lia | rewrite length_le_split; lia |].
  destruct (store_bytes_Some m3 16 (le_split 4 p3))
    as (m4 & E4 & L4); [lia | rewrite length_le_split; lia |].
  destruct (store_bytes_Some m4 20 (le_split 4 p4))
    as (m5 & E5 & L5); [lia | rewrite length_le_split; lia |].
  destruct (store_bytes_Some m5 24 (firstn (Z.to_nat dataLength) data))
    as (m6 & E6 & L6); [lia | rewrite Hld; lia |].
  destruct (store_bytes_Some m6 0 (le_split 2 (24 + dataLength - 4)))
    as (r' & E7 & L7); [lia | rewrite length_le_split; lia |].
  exists m0, m1, m2, m3, m4, m5, m6, r'.
  repeat (split; [assumption|]).
  unfold PrepareUSBCommand. change IVCAM_MONITOR_HEADER_SIZE with 24. zcmp.
  unfold store_u32, store_u16. cbv zeta.
  change (2 + 2 + 4 + 4 + 4 + 4 + 4) with 24.
  change (2 + 2 + 4 + 4 + 4 + 4) with 20.
  change (2 + 2 + 4 + 4 + 4) with 16.
  change (2 + 2 + 4 + 4) with 12.
  change (2 + 2 + 4) with 8.
  change (2 + 2) with 4.
  rewrite E0. cbn [bind]. rewrite E1. cbn [bind]. rewrite E2. cbn [bind].
  rewrite E3. cbn [bind]. rewrite E4. cbn [bind]. rewrite E5. cbn [bind].
  assert (Hfield : forall v, le_split 2 (to_uint16 v) = le_split 2 v)
    by (intros v; apply (le_split_mod 2 v)).
  destruct (Z.eqb_spec dataLength 0) as [Hz|Hnz]; cbn [bind].
  - subst dataLength. apply store_bytes_nil in E6. subst m6.
    change (to_size_t 24) with 24. rewrite Hfield.
    change (24 + 0 - 4) with (24 - 4) in E7. rewrite E7. reflexivity.
  - unfold memcpy. rewrite load_bytes_ok by lia.
    change (Z.to_nat 0) with 0%nat. cbn [skipn bind]. rewrite E6. cbn [bind].
    change (to_size_t 24) with 24.
    rewrite (to_int_small (24 + dataLength)) by lia.
    rewrite (to_size_t_small (24 + dataLength)) by lia.
    rewrite Hfield, E7. reflexivity.
Qed.

Ltac skip_store E :=
  rewrite (load_store_disjoint _ _ _ _ _ _ E)
    by (rewrite ?length_le_split, ?length_firstn; lia).

Ltac hit_store E :=
  let H := fresh "H" in
  pose proof (load_store_same _ _ _ _ E) as H;
  rewrite ?length_le_split in H;
  change (Z.of_nat 2) with 2 in H; change (Z.of_nat 4) with 4 in H;
  rewrite H; cbn [bind]; rewrite le_combine_split; clear H.

(** X1: what the framer writes can be read back.  For a capacity of at
    least 24, a payload that fits behind the header and a total within
    [int], the buffer holds, little endian: the total minus 4 cut to 16
    bits at offset 0, the magic number 0xCDAB at offset 2, the opcode and
    the four parameters (each cut to 32 bits) at offsets 4, 8, 12, 16 and
    20, and the payload bytes from offset 24. *)
Theorem PrepareUSBCommand_round_trip
  (request : buffer) (requestSize op p1 p2 p3 p4 : Z)
  (data : buffer) (dataLength : Z) :
  IVCAM_MONITOR_HEADER_SIZE <= requestSize ->
  0 <= dataLength <= Z.of_nat (List.length data) ->
  IVCAM_MONITOR_HEADER_SIZE + dataLength <= Z.of_nat (List.length request) ->
  IVCAM_MONITOR_HEADER_SIZE + dataLength <= INT_MAX ->
  exists request',
    PrepareUSBCommand request requestSize op p1 p2 p3 p4 data dataLength
    = Some {| prep_ret := IVCAM_MONITOR_HEADER_SIZE + dataLength;
              prep_request := request';
              prep_requestSize := IVCAM_MONITOR_HEADER_SIZE + dataLength |}
    /\ load_u16 request' 0
       = Some ((IVCAM_MONITOR_HEADER_SIZE + dataLength - 4) mod 2 ^ 16)
    /\ load_u16 request' 2 = Some IVCAM_MONITOR_MAGIC_NUMBER
    /\ load_u32 request' 4 = Some (op mod 2 ^ 32)
    /\ load_u32 request' 8 = Some (p1 mod 2 ^ 32)
    /\ load_u32 request' 12 = Some (p2 mod 2 ^ 32)
    /\ load_u32 request' 16 = Some (p3 mod 2 ^ 32)
    /\ load_u32 request' 20 = Some (p4 mod 2 ^ 32)
    /\ load_bytes request' IVCAM_MONITOR_HEADER_SIZE dataLength
       = Some (firstn (Z.to_nat dataLength) data).
Proof.
  change IVCAM_MONITOR_HEADER_SIZE with 24.
  intros Hcap Hd Hfit Hmax.
  destruct (PrepareUSBCommand_chain request requestSize op p1 p2 p3 p4
              data dataLength Hcap Hd Hfit Hmax)
    as (m0 & m1 & m2 & m3 & m4 & m5 & m6 & r'
        & E0 & E1 & E2 & E3 & E4 & E5 & E6 & E7 & EP).
  exists r'. split; [exact EP|].
  unfold load_u16, load_u32.
  repeat split.
  - hit_store E7. reflexivity.
  - skip_store E7. skip_store E6. skip_store E5. skip_store E4.
    skip_store E3. skip_store E2. skip_store E1. hit_store E0. reflexivity.
  - skip_store E7. skip_store E6. skip_store E5. skip_store E4.
    skip_store E3. skip_store E2. hit_store E1. reflexivity.
  - skip_store E7. skip_store E6. skip_store E5. skip_store E4.
    skip_store E3. hit_store E2. reflexivity.
  - skip_store E7. skip_store E6. skip_store E5. skip_store E4.
    hit_store E3. reflexivity.
  - skip_store E7. skip_store E6. skip_store E5. hit_store E4. reflexivity.
  - skip_store E7. skip_store E6. hit_store E5. reflexivity.
  - skip_store E7.
    pose proof (load_store_same _ _ _ _ E6) as H.
    rewrite length_firstn in H.
    replace (Z.of_nat (Nat.min (Z.to_nat dataLength) (List.length data)))
      with dataLength in H by lia.
    exact H.
Qed.

Lemma PrepareUSBCommand_round_trip_witness :
  exists request',
    PrepareUSBCommand (repeat Byte.x55 40) 40 0xBC 1 2 3 4
      [Byte.x0a; Byte.x0b; Byte.x0c] 3
    = Some {| prep_ret := IVCAM_MONITOR_HEADER_SIZE + 3;
              prep_request := request';
              prep_requestSize := IVCAM_MONITOR_HEADER_SIZE + 3 |}
    /\ load_u16 request' 0
       = Some ((IVCAM_MONITOR_HEADER_SIZE + 3 - 4) mod 2 ^ 16)
    /\ load_u16 request' 2 = Some IVCAM_MONITOR_MAGIC_NUMBER
    /\ load_u32 request' 4 = Some (0xBC mod 2 ^ 32)
    /\ load_u32 request' 8 = Some (1 mod 2 ^ 32)
    /\ load_u32 request' 12 = Some (2 mod 2 ^ 32)
    /\ load_u32 request' 16 = Some (3 mod 2 ^ 32)
    /\ load_u32 request' 20 = Some (4 mod 2 ^ 32)
    /\ load_bytes request' IVCAM_MONITOR_HEADER_SIZE 3
       = Some (firstn (Z.to_nat 3) [Byte.x0a; Byte.x0b; Byte.x0c]).
Proof.
  apply (PrepareUSBCommand_round_trip (repeat Byte.x55 40) 40 0xBC 1 2 3 4
           [Byte.x0a; Byte.x0b; Byte.x0c] 3).
  - unfold IVCAM_MONITOR_HEADER_SIZE. lia.
  - split; [lia | vm_compute; discriminate].
  - vm_compute. discriminate.
  - vm_compute. discriminate.
Defined.

Lemma store_bytes_skipn (b b' : buffer) (off : Z) (bs : list byte) (k : nat) :
  store_bytes b off bs = Some b' ->
  (Z.to_nat off + List.length bs <= k)%nat ->
  skipn k b' = skipn k b.
Proof.
  intros E Hk. apply nth_error_ext. intros i.
  rewrite !nth_error_skipn, (store_bytes_nth_error _ _ _ _ _ E).
  replace (k + i <? Z.to_nat off + List.length bs)%nat with false
    by (symmetry; apply Nat.ltb_ge; lia).
  now rewrite andb_false_r.
Qed.

(** Two buffers that agree outside a set of positions still do after the
    same store to both; the positions stored to leave the set. *)
Lemma store_bytes_agree (P : nat -> Prop) (b c b' c' : buffer)
  (off : Z) (bs : list byte) :
  (forall i, ~ P i -> nth_error b i = nth_error c i) ->
  store_bytes b off bs = Some b' ->
  store_bytes c off bs = Some c' ->
  forall i,
    ~ (P i /\ ~ (Z.to_nat off <= i < Z.to_nat off + List.length bs)%nat) ->
    nth_error b' i = nth_error c' i.
Proof.
  intros Hag Eb Ec i Hi.
  rewrite (store_bytes_nth_error _ _ _ _ _ Eb),
    (store_bytes_nth_error _ _ _ _ _ Ec).
  destruct ((Z.to_nat off <=? i)%nat
            && (i <? Z.to_nat off + List.length bs)%nat) eqn:C;
    [reflexivity|].
  apply Hag. intros HP. apply Hi. split; [exact HP|].
  rewrite andb_false_iff, Nat.leb_gt, Nat.ltb_ge in C. lia.
Qed.

(** X2: the framer writes the first [24 + dataLength] bytes of the request
    buffer and nothing else: the buffer keeps its length and every byte
    from offset [24 + dataLength] on.  What was in the first bytes before
    the call does not matter: two buffers that agree from that offset on
    come out equal. *)
Theorem PrepareUSBCommand_frame
  (request other : buffer) (requestSize op p1 p2 p3 p4 : Z)
  (data : buffer) (dataLength : Z) :
  IVCAM_MONITOR_HEADER_SIZE <= requestSize ->
  0 <= dataLength <= Z.of_nat (List.length data) ->
  IVCAM_MONITOR_HEADER_SIZE + dataLength <= Z.of_nat (List.length request) ->
  IVCAM_MONITOR_HEADER_SIZE + dataLength <= INT_MAX ->
  let total := Z.to_nat (IVCAM_MONITOR_HEADER_SIZE + dataLength) in
  exists request',
    PrepareUSBCommand request requestSize op p1 p2 p3 p4 data dataLength
    = Some {| prep_ret := Z.of_nat total; prep_request := request';
              prep_requestSize := Z.of_nat total |}
    /\ List.length request' = List.length request
    /\ skipn total request' = skipn total request
    /\ (List.length other = List.length request ->
        skipn total other = skipn total request ->
        PrepareUSBCommand other requestSize op p1 p2 p3 p4 data dataLength
        = PrepareUSBCommand request requestSize op p1 p2 p3 p4 data dataLength).
Proof.
  change IVCAM_MONITOR_HEADER_SIZE with 24.
  intros Hcap Hd Hfit Hmax total.
  assert (Ht : Z.of_nat total = 24 + dataLength) by (subst total; lia).
  rewrite Ht.
  assert (Hld : List.length (firstn (Z.to_nat dataLength) data)
                = Z.to_nat dataLength)
    by (rewrite length_firstn; lia).
  destruct (PrepareUSBCommand_chain request requestSize op p1 p2 p3 p4
              data dataLength Hcap Hd Hfit Hmax)
    as (m0 & m1 & m2 & m3 & m4 & m5 & m6 & r'
        & E0 & E1 & E2 & E3 & E4 & E5 & E6 & E7 & EP).
  exists r'. split; [exact EP|]. split; [|split].
  - rewrite (store_bytes_length _ _ _ _ E7), (store_bytes_length _ _ _ _ E6),
      (store_bytes_length _ _ _ _ E5), (store_bytes_length _ _ _ _ E4),
      (store_bytes_length _ _ _ _ E3), (store_bytes_length _ _ _ _ E2),
      (store_bytes_length _ _ _ _ E1), (store_bytes_length _ _ _ _ E0).
    reflexivity.
  - rewrite (store_bytes_skipn _ _ _ _ total E7)
      by (rewrite length_le_split; lia).
    rewrite (store_bytes_skipn _ _ _ _ total E6) by (rewrite Hld; lia).
    rewrite (store_bytes_skipn _ _ _ _ total E5)
      by (rewrite length_le_split; lia).
    rewrite (store_bytes_skipn _ _ _ _ total E4)
      by (rewrite length_le_split; lia).
    rewrite (store_bytes_skipn _ _ _ _ total E3)
      by (rewrite length_le_split; lia).
    rewrite (store_bytes_skipn _ _ _ _ total E2)
      by (rewrite length_le_split; lia).
    rewrite (store_bytes_skipn _ _ _ _ total E1)
      by (rewrite length_le_split; lia).
    apply (store_bytes_skipn _ _ _ _ total E0).
    rewrite length_le_split. lia.
  - intros Hlo Hso.
    destruct (PrepareUSBCommand_chain other requestSize op p1 p2 p3 p4
                data dataLength Hcap Hd ltac:(lia) Hmax)
      as (n0 & n1 & n2 & n3 & n4 & n5 & n6 & o'
          & F0 & F1 & F2 & F3 & F4 & F5 & F6 & F7 & FP).
    rewrite FP, EP. do 2 f_equal.
    assert (A : forall i, ~ (i < total)%nat ->
                          nth_error other i = nth_error request i).
    { intros i Hi. replace i with (total + (i - total))%nat by lia.
      rewrite <- !nth_error_skipn. now rewrite Hso. }
    pose proof (store_bytes_agree _ _ _ _ _ _ _ A F0 E0) as A0.
    pose proof (store_bytes_agree _ _ _ _ _ _ _ A0 F1 E1) as A1.
    pose proof (store_bytes_agree _ _ _ _ _ _ _ A1 F2 E2) as A2.
    pose proof (store_bytes_agree _ _ _ _ _ _ _ A2 F3 E3) as A3.
    pose proof (store_bytes_agree _ _ _ _ _ _ _ A3 F4 E4) as A4.
    pose proof (store_bytes_agree _ _ _ _ _ _ _ A4 F5 E5) as A5.
    pose proof (store_bytes_agree _ _ _ _ _ _ _ A5 F6 E6) as A6.
    pose proof (store_bytes_agree _ _ _ _ _ _ _ A6 F7 E7) as A7.
    apply nth_error_ext. intros i. apply A7.
    rewrite !length_le_split, Hld.
    change (Z.to_nat 0) with 0%nat. change (Z.to_nat 2) with 2%nat.
    change (Z.to_nat 4) with 4%nat. change (Z.to_nat 8) with 8%nat.
    change (Z.to_nat 12) with 12%nat. change (Z.to_nat 16) with 16%nat.
    change (Z.to_nat 20) with 20%nat. change (Z.to_nat 24) with 24%nat.
    lia.
Qed.

Lemma PrepareUSBCommand_frame_witness :
  exists request',
    PrepareUSBCommand (repeat Byte.x55 40) 40 0xBC 1 2 3 4
      [Byte.x0a; Byte.x0b; Byte.x0c] 3
    = Some {| prep_ret := 27; prep_request := request';
              prep_requestSize := 27 |}
    /\ List.length request' = 40%nat
    /\ skipn 27 request' = repeat Byte.x55 13.
Proof.
  edestruct (PrepareUSBCommand_frame (repeat Byte.x55 40) (zeros 40) 40
               0xBC 1 2 3 4 [Byte.x0a; Byte.x0b; Byte.x0c] 3)
    as (r' & E & Hl & Hs & _).
  - unfold IVCAM_MONITOR_HEADER_SIZE. lia.
  - split; [lia | vm_compute; discriminate].
  - vm_compute. discriminate.
  - vm_compute. discriminate.
  - exists r'. split; [exact E|]. split; [exact Hl | exact Hs].
Defined.

(** X3: the two framers agree.  With the same opcode, parameters and
    payload, a buffer that holds header and payload and a total within
    [int], [FillUSBBuffer] leaves in the buffer exactly the bytes
    [PrepareUSBCommand] leaves there (given a capacity of at least 24), and
    the length it reports is [PrepareUSBCommand]'s return value. *)
Theorem FillUSBBuffer_agrees_with_PrepareUSBCommand
  (bufferToSend : buffer) (requestSize length_in : Z)
  (op p1 p2 p3 p4 : Z) (data : buffer) (dataLength : Z) :
  IVCAM_MONITOR_HEADER_SIZE <= requestSize ->
  0 <= dataLength <= Z.of_nat (List.length data) ->
  IVCAM_MONITOR_HEADER_SIZE + dataLength <= Z.of_nat (List.length bufferToSend) ->
  IVCAM_MONITOR_HEADER_SIZE + dataLength <= INT_MAX ->
  exists request',
    PrepareUSBCommand bufferToSend requestSize op p1 p2 p3 p4 data dataLength
    = Some {| prep_ret := IVCAM_MONITOR_HEADER_SIZE + dataLength;
              prep_request := request';
              prep_requestSize := IVCAM_MONITOR_HEADER_SIZE + dataLength |}
    /\ FillUSBBuffer op p1 p2 p3 p4 data dataLength bufferToSend length_in
       = Some (request', IVCAM_MONITOR_HEADER_SIZE + dataLength).
Proof.
  change IVCAM_MONITOR_HEADER_SIZE with 24.
  intros Hcap Hd Hfit Hmax.
  destruct (PrepareUSBCommand_chain bufferToSend requestSize op p1 p2 p3 p4
              data dataLength Hcap Hd Hfit Hmax)
    as (m0 & m1 & m2 & m3 & m4 & m5 & m6 & r'
        & E0 & E1 & E2 & E3 & E4 & E5 & E6 & E7 & EP).
  exists r'. split; [exact EP|].
  unfold INT_MAX in Hmax. change (2 ^ 31 - 1) with 2147483647 in Hmax.
  unfold FillUSBBuffer, store_u32, store_u16. cbv zeta.
  change (to_uint16 IVCAM_MONITOR_MAGIC_NUMBER) with IVCAM_MONITOR_MAGIC_NUMBER.
  change (2 + 2 + 4 + 4 + 4 + 4 + 4) with 24.
  change (2 + 2 + 4 + 4 + 4 + 4) with 20.
  change (2 + 2 + 4 + 4 + 4) with 16.
  change (2 + 2 + 4 + 4) with 12.
  change (2 + 2 + 4) with 8.
  change (2 + 2) with 4.
  rewrite E0. cbn [bind]. rewrite E1. cbn [bind]. rewrite E2. cbn [bind].
  rewrite E3. cbn [bind]. rewrite E4. cbn [bind]. rewrite E5. cbn [bind].
  assert (Hfield : forall v, le_split 2 (to_uint16 v) = le_split 2 v)
    by (intros v; apply (le_split_mod 2 v)).
  destruct (Z.eqb_spec dataLength 0) as [Hz|Hnz]; cbn [bind].
  - subst dataLength. apply store_bytes_nil in E6. subst m6.
    rewrite Hfield. change (24 + 0 - 4) with (24 - 4) in E7.
    rewrite E7. reflexivity.
  - unfold memcpy. rewrite (to_size_t_small dataLength) by lia.
    rewrite load_bytes_ok by lia.
    change (Z.to_nat 0) with 0%nat. cbn [skipn bind]. rewrite E6. cbn [bind].
    replace (- 2 ^ 31 <=? 24 + dataLength) with true
      by (symmetry; apply Z.leb_le; lia).
    replace (24 + dataLength <=? INT_MAX) with true
      by (symmetry; apply Z.leb_le; change INT_MAX with 2147483647; lia).
    cbn [andb bind]. rewrite Hfield, E7. reflexivity.
Qed.

Lemma FillUSBBuffer_agrees_with_PrepareUSBCommand_witness :
  exists request',
    PrepareUSBCommand (repeat Byte.x55 40) 40 0xBC 1 2 3 4
      [Byte.x0a; Byte.x0b; Byte.x0c] 3
    = Some {| prep_ret := IVCAM_MONITOR_HEADER_SIZE + 3;
              prep_request := request';
              prep_requestSize := IVCAM_MONITOR_HEADER_SIZE + 3 |}
    /\ FillUSBBuffer 0xBC 1 2 3 4 [Byte.x0a; Byte.x0b; Byte.x0c] 3
         (repeat Byte.x55 40) 0
       = Some (request', IVCAM_MONITOR_HEADER_SIZE + 3).
Proof.
  apply (FillUSBBuffer_agrees_with_PrepareUSBCommand (repeat Byte.x55 40) 40 0
           0xBC 1 2 3 4 [Byte.x0a; Byte.x0b; Byte.x0c] 3).
  - unfold IVCAM_MONITOR_HEADER_SIZE. lia.
  - split; [lia | vm_compute; discriminate].
  - vm_compute. discriminate.
  - vm_compute. discriminate.
Defined.

(** ** Transport Executor: lock and transfers on every path *)

Ltac exec_cases dev in_ inSize :=
  unfold ExecuteUSBCommand; cbn [negb];
  destruct (Z.ltb_spec (out_ret dev) 0);
  [ replace (0 <=? out_ret dev) with false
      by (symmetry; apply Z.leb_gt; lia)
  | replace (0 <=? out_ret dev) with true
      by (symmetry; apply Z.leb_le; lia);
    destruct in_ as [?inb|];
    [ destruct (inSize =? 0); cbn [negb];
      [ | destruct (in_transferred dev <? to_int 4);
          [ | destruct (load_u32 (in_buf dev) 0);
              [ destruct (in_transferred dev >? to_int inSize);
                [ | destruct (memcpy _ 0 (in_buf dev) 0 _) ]
              | ] ] ]
    | ] ].

(** X4: the lock on every path.  A call that does not run into undefined
    behaviour calls [unlock] once if it found the mutex free and its OUT
    transfer did not fail, and not at all otherwise; the mutex is free
    afterwards in the first case and held in the second.  No path unlocks
    twice. *)
Theorem ExecuteUSBCommand_lock_accounting
  (dev : Device) (held : bool) (out : buffer) (outSize op : Z)
  (in_ : option buffer) (inSize : Z) :
  let e := ExecuteUSBCommand dev held out outSize op in_ inSize in
  result e <> UndefinedBehaviour ->
  let released := negb held && (0 <=? out_ret dev) in
  count_unlock (trace e) = (if released then 1%nat else 0%nat)
  /\ usbMutex e = negb released.
Proof.
  intros e Hub released. subst e released.
  destruct held; cbn [negb andb]; [now cbn|].
  revert Hub. exec_cases dev in_ inSize; cbn [result]; intros Hub;
    try (exfalso; apply Hub; reflexivity); now cbn.
Qed.

Lemma ExecuteUSBCommand_lock_accounting_witness :
  let e := ExecuteUSBCommand (dev_answers 3) false [] 0 0
             (Some (repeat Byte.x55 8)) 8 in
  count_unlock (trace e) = 1%nat /\ usbMutex e = false.
Proof.
  apply (ExecuteUSBCommand_lock_accounting (dev_answers 3) false [] 0 0
           (Some (repeat Byte.x55 8)) 8).
  discriminate.
Defined.

(** X5: the transfers on every path.  A call that acquires the lock makes
    exactly one OUT transfer; it makes one IN transfer if the OUT transfer
    did not fail and a response is expected ([in] not null, [inSize] not
    zero), and none otherwise: no read follows a failed write.  A call that
    does not acquire the lock makes no transfer at all. *)
Theorem ExecuteUSBCommand_transfers
  (dev : Device) (held : bool) (out : buffer) (outSize op : Z)
  (in_ : option buffer) (inSize : Z) :
  let e := ExecuteUSBCommand dev held out outSize op in_ inSize in
  let expects_response :=
    match in_ with Some _ => negb (inSize =? 0) | None => false end in
  count_transfers IVCAM_MONITOR_ENDPOINT_OUT (trace e)
  = (if held then 0%nat else 1%nat)
  /\ count_transfers IVCAM_MONITOR_ENDPOINT_IN (trace e)
     = (if negb held && (0 <=? out_ret dev) && expects_response
        then 1%nat else 0%nat).
Proof.
  intros e expects_response. subst e expects_response.
  destruct held; cbn [negb andb]; [now cbn|].
  exec_cases dev in_ inSize; now cbn.
Qed.

Section ExecutorPaths.

Variables (dev : Device) (out : buffer) (outSize op : Z).

(** X6: a response shorter than 4 bytes.  The call prints the IN failure
    message, releases the lock and returns -1; no status word is read, so
    [op], the caller's buffer and [inSize] are all what they were. *)
Theorem ExecuteUSBCommand_short_read (inb : buffer) (inSize : Z) :
  0 <= out_ret dev ->
  inSize <> 0 ->
  in_transferred dev < 4 ->
  let e := ExecuteUSBCommand dev false out outSize op (Some inb) inSize in
  result e = Returned (-1)
  /\ usbMutex e = false
  /\ op_ref e = op
  /\ in_obj e = Some inb
  /\ inSize_ref e = inSize
  /\ trace e
     = [try_lock_for IVCAM_MONITOR_MUTEX_TIMEOUT true;
        libusb_bulk_transfer IVCAM_MONITOR_ENDPOINT_OUT out (to_int outSize) 1000;
        libusb_bulk_transfer IVCAM_MONITOR_ENDPOINT_IN []
          IVCAM_MONITOR_MAX_BUFFER_SIZE 1000;
        printf msg_endpoint_in; unlock].
Proof.
  intros Ho Hs Hx e. subst e. unfold ExecuteUSBCommand. cbn [negb].
  change (to_int 4) with 4. zcmp. cbn [negb]. repeat split.
Qed.

(** X7: an exchange without a response.  With a null [in] or an [inSize]
    of zero the call is over after the OUT transfer: it returns what that
    transfer returned, releases the lock, and writes none of [op], the
    caller's buffer and [inSize]. *)
Theorem ExecuteUSBCommand_write_only (in_ : option buffer) (inSize : Z) :
  0 <= out_ret dev ->
  in_ = None \/ inSize = 0 ->
  let e := ExecuteUSBCommand dev false out outSize op in_ inSize in
  result e = Returned (out_ret dev)
  /\ usbMutex e = false
  /\ op_ref e = op
  /\ in_obj e = in_
  /\ inSize_ref e = inSize
  /\ trace e
     = [try_lock_for IVCAM_MONITOR_MUTEX_TIMEOUT true;
        libusb_bulk_transfer IVCAM_MONITOR_ENDPOINT_OUT out (to_int outSize) 1000;
        unlock].
Proof.
  intros Ho Hw e. subst e. unfold ExecuteUSBCommand. cbn [negb]. zcmp.
  destruct in_ as [inb|]; [|repeat split].
  destruct Hw as [Hw|Hw]; [discriminate|]. subst inSize.
  cbn [Z.eqb negb]. repeat split.
Qed.

End ExecutorPaths.

Lemma ExecuteUSBCommand_short_read_witness :
  let e := ExecuteUSBCommand (dev_answers 3) false [] 0 7
             (Some (repeat Byte.x55 8)) 8 in
  result e = Returned (-1)
  /\ usbMutex e = false
  /\ op_ref e = 7
  /\ in_obj e = Some (repeat Byte.x55 8)
  /\ inSize_ref e = 8
  /\ trace e
     = [try_lock_for IVCAM_MONITOR_MUTEX_TIMEOUT true;
        libusb_bulk_transfer IVCAM_MONITOR_ENDPOINT_OUT [] (to_int 0) 1000;
        libusb_bulk_transfer IVCAM_MONITOR_ENDPOINT_IN []
          IVCAM_MONITOR_MAX_BUFFER_SIZE 1000;
        printf msg_endpoint_in; unlock].
Proof.
  apply (ExecuteUSBCommand_short_read (dev_answers 3) [] 0 7
           (repeat Byte.x55 8) 8).
  - cbn. lia.
  - discriminate.
  - cbn. lia.
Defined.

Lemma ExecuteUSBCommand_write_only_witness :
  let e := ExecuteUSBCommand (dev_answers 8) false [] 0 7
             (Some (repeat Byte.x55 8)) 0 in
  result e = Returned (out_ret (dev_answers 8))
  /\ usbMutex e = false
  /\ op_ref e = 7
  /\ in_obj e = Some (repeat Byte.x55 8)
  /\ inSize_ref e = 0
  /\ trace e
     = [try_lock_for IVCAM_MONITOR_MUTEX_TIMEOUT true;
        libusb_bulk_transfer IVCAM_MONITOR_ENDPOINT_OUT [] (to_int 0) 1000;
        unlock].
Proof.
  apply (ExecuteUSBCommand_write_only (dev_answers 8) [] 0 7
           (Some (repeat Byte.x55 8)) 0).
  - cbn. lia.
  - right. reflexivity.
Defined.

(** ** Calls one after the other *)

Lemma run_calls_length (held : bool) (cs : list call) :
  List.length (run_calls held cs) = List.length cs.
Proof.
  revert held. induction cs as [|c cs IH]; intros held; cbn; [reflexivity|].
  now rewrite IH.
Qed.

Lemma run_calls_held (cs : list call) :
  Forall (fun e => result e = Thrown msg_mutex_timeout
                   /\ usbMutex e = true
                   /\ existsb is_bulk_transfer (trace e) = false)
    (run_calls true cs).
Proof.
  induction cs as [|c cs IH]; cbn [run_calls]; constructor.
  - now cbn.
  - exact IH.
Qed.

(** X8: a lock that was not released blocks the object for good.  After a
    call whose OUT transfer failed, every later call on the object,
    whatever its arguments and whatever the device would answer, throws the
    mutex time-out and makes no USB transfer. *)
Theorem failed_write_blocks_all_later_calls (c : call) (cs : list call) :
  out_ret (call_dev c) < 0 ->
  exists e es,
    run_calls false (c :: cs) = e :: es
    /\ result e = Returned (out_ret (call_dev c))
    /\ List.length es = List.length cs
    /\ Forall (fun e' => result e' = Thrown msg_mutex_timeout
                         /\ usbMutex e' = true
                         /\ existsb is_bulk_transfer (trace e') = false) es.
Proof.
  intros Hneg. cbn [run_calls]. do 2 eexists. split; [reflexivity|].
  unfold ExecuteUSBCommand at 1 2 3. cbn [negb]. zcmp.
  cbn [result usbMutex]. split; [reflexivity|]. split.
  - apply run_calls_length.
  - apply run_calls_held.
Qed.

Lemma failed_write_blocks_all_later_calls_witness :
  exists e es,
    run_calls false
      [ {| call_dev := dev_out_timeout; call_out := []; call_outSize := 0;
           call_op := 0; call_in := None; call_inSize := 0 |};
        {| call_dev := dev_answers 8; call_out := []; call_outSize := 0;
           call_op := 0; call_in := Some (repeat Byte.x55 8);
           call_inSize := 8 |} ]
    = e :: es
    /\ result e = Returned (-7)
    /\ List.length es = 1%nat
    /\ Forall (fun e' => result e' = Thrown msg_mutex_timeout
                         /\ usbMutex e' = true
                         /\ existsb is_bulk_transfer (trace e') = false) es.
Proof.
  apply (failed_write_blocks_all_later_calls
           {| call_dev := dev_out_timeout; call_out := []; call_outSize := 0;
              call_op := 0; call_in := None; call_inSize := 0 |}
           [ {| call_dev := dev_answers 8; call_out := []; call_outSize := 0;
                call_op := 0; call_in := Some (repeat Byte.x55 8);
                call_inSize := 8 |} ]).
  cbn. lia.
Defined.

Lemma sound_call_returns (c : call) :
  sound_call c ->
  0 <= out_ret (call_dev c) ->
  let e := ExecuteUSBCommand (call_dev c) false (call_out c) (call_outSize c)
             (call_op c) (call_in c) (call_inSize c) in
  (exists r, result e = Returned r) /\ usbMutex e = false.
Proof.
  intros (Hb & Hx & Hin) Ho e. subst e.
  unfold INT_MAX in Hin. change (2 ^ 31 - 1) with 2147483647 in Hin.
  unfold ExecuteUSBCommand. cbn [negb]. zcmp.
  destruct (call_in c) as [inb|]; [|split; [eexists|]; reflexivity].
  destruct Hin as (Hs & Hcap).
  destruct (call_inSize c =? 0); cbn [negb];
    [split; [eexists|]; reflexivity|].
  change (to_int 4) with 4. rewrite (to_int_small (call_inSize c)) by lia.
  destruct (Z.ltb_spec (in_transferred (call_dev c)) 4);
    [split; [eexists|]; reflexivity|].
  rewrite load_u32_head by exact Hb.
  destruct (Z.ltb_spec (call_inSize c) (in_transferred (call_dev c)));
    [split; [eexists|]; reflexivity|].
  rewrite to_size_t_small by lia.
  rewrite memcpy_prefix by lia.
  split; [eexists|]; reflexivity.
Qed.

(** X9: calls within contract never time out on each other.  In a
    sequence of calls on a fresh object in which every OUT transfer
    succeeds, libusb stays within the scratch buffer and every stated
    capacity is true, each call returns with the mutex released, so the
    next one acquires it: none throws. *)
Theorem successful_writes_never_block (cs : list call) :
  Forall (fun c => sound_call c /\ 0 <= out_ret (call_dev c)) cs ->
  Forall (fun e => (exists r, result e = Returned r) /\ usbMutex e = false)
    (run_calls false cs).
Proof.
  induction 1 as [|c cs [Hs Ho] _ IH]; cbn [run_calls]; [constructor|].
  destruct (sound_call_returns c Hs Ho) as [Hr Hm].
  constructor; [split; assumption|].
  rewrite Hm. exact IH.
Qed.

Lemma successful_writes_never_block_witness :
  Forall (fun e => (exists r, result e = Returned r) /\ usbMutex e = false)
    (run_calls false
       [ {| call_dev := dev_answers 10; call_out := []; call_outSize := 0;
            call_op := 0; call_in := Some (repeat Byte.x55 8);
            call_inSize := 8 |};
         {| call_dev := dev_answers 8; call_out := []; call_outSize := 0;
            call_op := 0; call_in := Some (repeat Byte.x55 8);
            call_inSize := 8 |} ]).
Proof.
  apply successful_writes_never_block.
  repeat constructor; try (vm_compute; discriminate); cbn; lia.
Defined.

(** ** Calibration Fetcher: every way it ends *)

Lemma PrepareUSBCommand_calibration_request :
  PrepareUSBCommand (zeros IVCAM_MONITOR_HEADER_SIZE) IVCAM_MONITOR_HEADER_SIZE
    GetCalibrationTable 0 0 0 0 [] 0
  = Some {| prep_ret := 24; prep_request := calibration_request;
            prep_requestSize := 24 |}.
Proof. reflexivity. Qed.

(** The fetcher is one exchange of the fixed 24-byte request. *)
Lemma GetCalibrationRawData_exchange
  (dev : Device) (held : bool) (data : option buffer) (bytesReturned : Z) :
  GetCalibrationRawData dev held data bytesReturned
  = let e := ExecuteUSBCommand dev held calibration_request 24 0
               data bytesReturned in
    {| fetch_result :=
         match result e with
         | Returned r =>
             if negb (r =? -1) then Returned tt
             else Thrown msg_calibration_failed
         | Thrown what => Thrown what
         | UndefinedBehaviour => UndefinedBehaviour
         end;
       fetch_usbMutex := usbMutex e;
       fetch_data := in_obj e;
       fetch_bytesReturned := inSize_ref e;
       fetch_trace := trace e |}.
Proof.
  unfold GetCalibrationRawData.
  rewrite PrepareUSBCommand_calibration_request. reflexivity.
Qed.

Section FetcherFacts.

Variables (dev : Device) (data : buffer) (bytesReturned : Z).


(** X11: a malformed response makes the fetcher throw.  When the OUT
    transfer does not fail and the response is shorter than 4 bytes or
    longer than [bytesReturned], the fetcher throws its runtime error; the
    lock is released, and the caller's buffer and [bytesReturned] are what
    they were. *)
Theorem GetCalibrationRawData_malformed_response :
  0 <= out_ret dev ->
  0 < bytesReturned <= INT_MAX ->
  4 <= Z.of_nat (List.length (in_buf dev)) ->
  in_transferred dev < 4 \/ bytesReturned < in_transferred dev ->
  let f := GetCalibrationRawData dev false (Some data) bytesReturned in
  fetch_result f = Thrown msg_calibration_failed
  /\ fetch_data f = Some data
  /\ fetch_bytesReturned f = bytesReturned
  /\ fetch_usbMutex f = false.
Proof.
  intros Ho Hs Hb Hbad f. subst f.
  unfold INT_MAX in Hs. change (2 ^ 31 - 1) with 2147483647 in Hs.
  rewrite GetCalibrationRawData_exchange. cbv zeta.
  unfold ExecuteUSBCommand. cbn [negb].
  change (to_int 4) with 4.
  rewrite (to_int_small bytesReturned) by lia.
  rewrite load_u32_head by lia.
  replace (out_ret dev <? 0) with false by (symmetry; apply Z.ltb_ge; lia).
  replace (bytesReturned =? 0) with false by (symmetry; apply Z.eqb_neq; lia).
  cbn [negb].
  destruct (Z.ltb_spec (in_transferred dev) 4); [repeat split|].
  rewrite Z.gtb_ltb.
  replace (bytesReturned <? in_transferred dev) with true
    by (symmetry; apply Z.ltb_lt; lia).
  repeat split.
Qed.


End FetcherFacts.

(** X13: what the fetcher does without the lock or without a buffer.  If
    the mutex is held, the executor's time-out exception passes through
    unchanged and nothing is sent.  If the lock is acquired and the OUT
    transfer does not fail, a null buffer or a capacity of zero makes the
    fetcher return normally after the request alone: no response is read. *)
Theorem GetCalibrationRawData_without_lock_or_buffer
  (dev : Device) (data : option buffer) (bytesReturned : Z) :
  (let f := GetCalibrationRawData dev true data bytesReturned in
   fetch_result f = Thrown msg_mutex_timeout
   /\ fetch_trace f = [try_lock_for IVCAM_MONITOR_MUTEX_TIMEOUT false]
   /\ fetch_data f = data /\ fetch_bytesReturned f = bytesReturned)
  /\ (0 <= out_ret dev ->
      data = None \/ bytesReturned = 0 ->
      let f := GetCalibrationRawData dev false data bytesReturned in
      fetch_result f = Returned tt
      /\ count_transfers IVCAM_MONITOR_ENDPOINT_IN (fetch_trace f) = 0%nat
      /\ fetch_data f = data /\ fetch_bytesReturned f = bytesReturned
      /\ fetch_usbMutex f = false).
Proof.
  split.
  - rewrite GetCalibrationRawData_exchange. repeat split.
  - intros Ho Hw. rewrite GetCalibrationRawData_exchange. cbv zeta.
    unfold ExecuteUSBCommand. cbn [negb].
    replace (out_ret dev <? 0) with false by (symmetry; apply Z.ltb_ge; lia).
    assert (Hne : (out_ret dev =? -1) = false)
      by (apply Z.eqb_neq; lia).
    destruct data as [inb|].
    + destruct Hw as [Hw|Hw]; [discriminate|]. subst bytesReturned.
      cbn [Z.eqb negb result usbMutex in_obj inSize_ref trace fetch_result
           fetch_data fetch_bytesReturned fetch_usbMutex fetch_trace].
      rewrite Hne. repeat split.
    + cbn [result usbMutex in_obj inSize_ref trace fetch_result
           fetch_data fetch_bytesReturned fetch_usbMutex fetch_trace].
      rewrite Hne. repeat split.
Qed.


Lemma GetCalibrationRawData_malformed_response_witness :
  let f := GetCalibrationRawData (dev_answers 3) false
             (Some (repeat Byte.x55 10)) 10 in
  fetch_result f = Thrown msg_calibration_failed
  /\ fetch_data f = Some (repeat Byte.x55 10)
  /\ fetch_bytesReturned f = 10
  /\ fetch_usbMutex f = false.
Proof.
  apply (GetCalibrationRawData_malformed_response (dev_answers 3)
           (repeat Byte.x55 10) 10).
  - cbn. lia.
  - unfold INT_MAX. lia.
  - vm_compute. discriminate.
  - left. cbn. lia.
Defined.


Lemma GetCalibrationRawData_without_lock_or_buffer_witness :
  let f := GetCalibrationRawData (dev_answers 8) false None 10 in
  fetch_result f = Returned tt
  /\ count_transfers IVCAM_MONITOR_ENDPOINT_IN (fetch_trace f) = 0%nat
  /\ fetch_data f = None /\ fetch_bytesReturned f = 10
  /\ fetch_usbMutex f = false.
Proof.
  apply (proj2 (GetCalibrationRawData_without_lock_or_buffer
                  (dev_answers 8) None 10)).
  - cbn. lia.
  - left. reflexivity.
Defined.

(** ** Calibration Decoder: what holds whenever it returns *)

Lemma bind_Some {A B : Type} (m : option A) (k : A -> option B) (b : B) :
  Mem.bind m k = Some b -> exists a, m = Some a /\ k a = Some b.
Proof. destruct m as [a|]; [|discriminate]. intros H. now exists a. Qed.

Section DecoderInversion.

Variable L : Layout.

Let sizeCCP := sizeof_CameraCalibrationParameters L.
Let sizeCCPV := sizeof_CameraCalibrationParametersVersion L.
Let sizeTD := sizeof_IVCAMTesterData L.
Let offCP := offsetof_CalibrationParameters L.

Variables (raw : buffer) (len : Z) (calprms TesterData0 : buffer).

(** The decoder below the minimum version. *)
Lemma ProjectionCalibrate_below (ver : Z) :
  getVersionOfCalibration raw 4 (4 + 2) = Some ver ->
  ver < 13 ->
  ProjectionCalibrate L raw len calprms TesterData0
  = Some {| calprms_obj := calprms; CalibrationData := zeros sizeCCPV;
            TesterData := TesterData0; calls := [] |}.
Proof.
  intros Hver Hlt. unfold ProjectionCalibrate. rewrite Hver. cbn [bind].
  unfold IVCAM_MIN_SUPPORTED_VERSION. zcmp. reflexivity.
Qed.

(** The steps of the decoder at the minimum version. *)
Lemma ProjectionCalibrate_minimum_inv (st : Decoded) :
  getVersionOfCalibration raw 4 (4 + 2) = Some 13 ->
  ProjectionCalibrate L raw len calprms TesterData0 = Some st ->
  exists hdr td1,
    memcpy calprms 0 raw 8 sizeCCP = Some (calprms_obj st)
    /\ load_bytes raw 4 4 = Some hdr
    /\ store_bytes TesterData0 0 hdr = Some td1
    /\ memset td1 4 Byte.x00 (to_size_t (sizeTD - 4)) = Some (TesterData st)
    /\ CalibrationData st = zeros sizeCCPV
    /\ calls st = [buildParameters_array (skipn 4 raw) 100].
Proof.
  intros Hver. unfold ProjectionCalibrate. rewrite Hver. cbn [bind].
  unfold IVCAM_MIN_SUPPORTED_VERSION, SIZE_OF_CALIB_HEADER_BYTES.
  cbn [Z.eqb Pos.eqb]. fold sizeCCP sizeCCPV sizeTD.
  change (4 + 4) with 8. change (Z.to_nat 4) with 4%nat.
  intros H.
  apply bind_Some in H. destruct H as (c' & Ec & H).
  apply bind_Some in H. destruct H as (td1 & E1 & H).
  apply bind_Some in H. destruct H as (td2 & E2 & H).
  injection H as <-. cbn [calprms_obj TesterData CalibrationData calls].
  unfold memcpy in E1. apply bind_Some in E1. destruct E1 as (hdr & Eh & E1).
  exists hdr, td1. repeat split; assumption.
Qed.

(** The steps of the decoder above the minimum version. *)
Lemma ProjectionCalibrate_versioned_inv (ver : Z) (st : Decoded) :
  getVersionOfCalibration raw 4 (4 + 2) = Some ver ->
  13 < ver ->
  ProjectionCalibrate L raw len calprms TesterData0 = Some st ->
  let size := to_int (if sizeCCPV >? to_size_t len
                      then to_size_t len else sizeCCPV) in
  exists cp hdr td1 tail,
    fixWithVersionInfo (zeros sizeCCPV) size raw 4 = Some (CalibrationData st)
    /\ load_bytes (CalibrationData st) offCP sizeCCP = Some cp
    /\ store_bytes calprms 0 cp = Some (calprms_obj st)
    /\ load_bytes raw 4 4 = Some hdr
    /\ store_bytes TesterData0 0 hdr = Some td1
    /\ load_bytes raw (4 + (512 + 4)) (to_size_t (sizeTD - 4)) = Some tail
    /\ store_bytes td1 4 tail = Some (TesterData st)
    /\ exists temp loop,
        load_bytes (TesterData st) (offsetof_TemperatureData L)
          (sizeof_IVCAMTemperatureData L) = Some temp
        /\ load_bytes (TesterData st) (offsetof_ThermalLoopParams L)
             (sizeof_IVCAMThermalLoopParams L) = Some loop
        /\ calls st = [buildParameters_struct cp;
                       InitializeThermalData temp loop].
Proof.
  intros Hver Hgt. unfold ProjectionCalibrate. rewrite Hver. cbn [bind].
  unfold IVCAM_MIN_SUPPORTED_VERSION, SIZE_OF_CALIB_HEADER_BYTES,
    SIZE_OF_CALIB_PARAM_BYTES.
  zcmp. fold sizeCCP sizeCCPV sizeTD offCP.
  intros H. cbv zeta.
  apply bind_Some in H. destruct H as (cd & Ecd & H).
  apply bind_Some in H. destruct H as (c' & Ec & H).
  apply bind_Some in H. destruct H as (cp & Ecp & H).
  apply bind_Some in H. destruct H as (td1 & E1 & H).
  apply bind_Some in H. destruct H as (td2 & E2 & H).
  apply bind_Some in H. destruct H as (temp & Et & H).
  apply bind_Some in H. destruct H as (loop & El & H).
  injection H as <-. cbn [calprms_obj TesterData CalibrationData calls].
  unfold memcpy in Ec, E1, E2.
  rewrite Ecp in Ec. cbn [bind] in Ec.
  apply bind_Some in E1. destruct E1 as (hdr & Eh & E1).
  apply bind_Some in E2. destruct E2 as (tail & Etl & E2).
  exists cp, hdr, td1, tail.
  repeat (split; [assumption|]).
  exists temp, loop. repeat split; assumption.
Qed.


End DecoderInversion.

Section DecoderInvariants.

Variable L : Layout.

Let sizeCCP := sizeof_CameraCalibrationParameters L.
Let sizeCCPV := sizeof_CameraCalibrationParametersVersion L.
Let sizeTD := sizeof_IVCAMTesterData L.
Let offCP := offsetof_CalibrationParameters L.


(** X15: which calls the calibration object gets.  Whenever the decoder
    returns: below version 13 it made no call; at version 13 exactly one,
    [buildParameters] on the float array at offset 4 of the raw data with
    count 100; above 13 exactly two, [buildParameters] on the very bytes
    it stored as parameters in [calprms], then [InitializeThermalData] on
    the two members of the tester data it built.  So the thermal data is
    initialised for versions above 13 and for no other. *)
Theorem ProjectionCalibrate_calls
  (raw : buffer) (len : Z) (calprms TesterData0 : buffer) (st : Decoded)
  (ver : Z) :
  ProjectionCalibrate L raw len calprms TesterData0 = Some st ->
  getVersionOfCalibration raw 4 (4 + 2) = Some ver ->
  (ver < 13 -> calls st = [])
  /\ (ver = 13 -> calls st = [buildParameters_array (skipn 4 raw) 100])
  /\ (13 < ver ->
      exists temp loop,
        calls st
        = [buildParameters_struct
             (firstn (Z.to_nat sizeCCP) (calprms_obj st));
           InitializeThermalData temp loop]
        /\ load_bytes (TesterData st) (offsetof_TemperatureData L)
             (sizeof_IVCAMTemperatureData L) = Some temp
        /\ load_bytes (TesterData st) (offsetof_ThermalLoopParams L)
             (sizeof_IVCAMThermalLoopParams L) = Some loop)
  /\ existsb is_InitializeThermalData (calls st) = (13 <? ver).
Proof.
  intros H Hv.
  destruct (Z.lt_trichotomy ver 13) as [Hlt|[Heq|Hgt]].
  - rewrite (ProjectionCalibrate_below L raw len calprms TesterData0 ver Hv Hlt)
      in H.
    injection H as <-. cbn [calls existsb].
    repeat split; try lia; try reflexivity; symmetry; apply Z.ltb_ge; lia.
  - subst ver.
    destruct (ProjectionCalibrate_minimum_inv L _ _ _ _ _ Hv H)
      as (hdr & td1 & _ & _ & _ & _ & _ & Hc).
    rewrite Hc. repeat split; try lia; reflexivity.
  - destruct (ProjectionCalibrate_versioned_inv L _ _ _ _ ver _ Hv Hgt H)
      as (cp & hdr & td1 & tail & Ecd & Ecp & Ec & Eh & E1 & Et & E2
          & temp & loop & Etemp & Eloop & Hc).
    assert (Hcp : firstn (Z.to_nat sizeCCP) (calprms_obj st) = cp).
    { destruct (load_bytes_defined _ _ _ _ Ecp) as (_ & _ & _ & _ & Hl).
      unfold store_bytes in Ec. destruct (in_bounds _ _ _); [|discriminate].
      injection Ec as <-. change (Z.to_nat 0) with 0%nat.
      cbn [firstn app]. fold sizeCCP in Hl. rewrite <- Hl.
      now rewrite firstn_app, firstn_all, Nat.sub_diag, firstn_O, app_nil_r. }
    rewrite Hc, Hcp. split; [lia|]. split; [lia|]. split.
    + intros _. exists temp, loop. repeat split; assumption.
    + cbn. symmetry. apply Z.ltb_lt. lia.
Qed.

(** X16: below and at version 13 the received length plays no role.  The
    decoder reads [len] only in the branch for versions above 13; for any
    other version two calls that differ in [len] alone give the same
    result. *)
Theorem ProjectionCalibrate_ignores_len_up_to_13
  (raw : buffer) (len len' : Z) (calprms TesterData0 : buffer) (ver : Z) :
  getVersionOfCalibration raw 4 (4 + 2) = Some ver ->
  ver <= 13 ->
  ProjectionCalibrate L raw len calprms TesterData0
  = ProjectionCalibrate L raw len' calprms TesterData0.
Proof.
  intros Hv Hle. unfold ProjectionCalibrate. rewrite Hv. cbn [bind].
  unfold IVCAM_MIN_SUPPORTED_VERSION.
  destruct (Z.eqb_spec ver 13); [reflexivity|].
  now replace (ver >? 13) with false
    by (symmetry; rewrite Z.gtb_ltb; apply Z.ltb_ge; lia).
Qed.

(** X17: which bytes become the parameters above version 13.  Whenever the
    decoder returns on such a blob with a received length between 4 and
    [INT_MAX], byte [i] of the stored parameters is the byte of the raw
    data at the offset the byte has in the versioned struct, as long as
    that offset is below [min(sizeof(versioned struct), len)]; from there
    on it is zero.  Bytes the transfer did not bring are zero filled, not
    taken from the buffer. *)
Theorem ProjectionCalibrate_versioned_bytes
  (raw : buffer) (len : Z) (calprms TesterData0 : buffer) (st : Decoded)
  (ver : Z) (i : nat) :
  layout_ok L ->
  ProjectionCalibrate L raw len calprms TesterData0 = Some st ->
  getVersionOfCalibration raw 4 (4 + 2) = Some ver ->
  13 < ver ->
  4 <= len <= INT_MAX ->
  (i < Z.to_nat sizeCCP)%nat ->
  nth_error (calprms_obj st) i
  = if Z.of_nat i + offCP <? Z.min sizeCCPV len
    then nth_error raw (i + Z.to_nat offCP)
    else Some Byte.x00.
Proof.
  intros (Hccp & Hoff & Hin & Hmax & _) H Hv Hgt Hlen Hi.
  unfold INT_MAX in *. change (2 ^ 31 - 1) with 2147483647 in *.
  fold sizeCCP sizeCCPV offCP in Hccp, Hoff, Hin, Hmax.
  destruct (ProjectionCalibrate_versioned_inv L _ _ _ _ ver _ Hv Hgt H)
    as (cp & hdr & td1 & tail & Ecd & Ecp & Ec & _).
  fold sizeCCP sizeCCPV offCP in Ecd, Ecp.
  assert (Hsize : to_int (if sizeCCPV >? to_size_t len
                          then to_size_t len else sizeCCPV)
                  = Z.min sizeCCPV len).
  { rewrite to_size_t_small by lia.
    destruct (Z.gtb_spec sizeCCPV len); rewrite to_int_small; lia. }
  rewrite Hsize in Ecd. unfold fixWithVersionInfo, memcpy in Ecd.
  rewrite (to_size_t_small (Z.min sizeCCPV len)),
    (to_size_t_small (Z.min sizeCCPV len - 4)) in Ecd by lia.
  apply bind_Some in Ecd. destruct Ecd as (bs & Ebs & Ecd).
  destruct (load_bytes_defined _ _ _ _ Ebs) as (_ & _ & _ & _ & Hlbs).
  destruct (load_bytes_defined _ _ _ _ Ecp) as (_ & _ & _ & _ & Hlcp).
  rewrite (store_bytes_nth_error _ _ _ _ i Ec).
  change (Z.to_nat 0) with 0%nat. cbn [Nat.leb andb Nat.add].
  rewrite Hlcp, Nat.sub_0_r.
  replace (i <? Z.to_nat sizeCCP)%nat with true
    by (symmetry; apply Nat.ltb_lt; lia).
  rewrite (load_bytes_nth_error _ _ _ _ i Ecp).
  replace (i <? Z.to_nat sizeCCP)%nat with true
    by (symmetry; apply Nat.ltb_lt; lia).
  rewrite (store_bytes_nth_error _ _ _ _ _ Ecd), Hlbs.
  change (Z.to_nat 4) with 4%nat.
  replace (4 <=? Z.to_nat offCP + i)%nat with true
    by (symmetry; apply Nat.leb_le; lia).
  cbn [andb].
  destruct (Z.ltb_spec (Z.of_nat i + offCP) (Z.min sizeCCPV len)) as [Hc|Hc].
  - replace (Z.to_nat offCP + i <? 4 + Z.to_nat (Z.min sizeCCPV len - 4))%nat
      with true by (symmetry; apply Nat.ltb_lt; lia).
    rewrite (load_bytes_nth_error _ _ _ _ _ Ebs).
    replace (Z.to_nat offCP + i - 4 <? Z.to_nat (Z.min sizeCCPV len - 4))%nat
      with true by (symmetry; apply Nat.ltb_lt; lia).
    f_equal. change (Z.to_nat 4) with 4%nat. lia.
  - replace (Z.to_nat offCP + i <? 4 + Z.to_nat (Z.min sizeCCPV len - 4))%nat
      with false by (symmetry; apply Nat.ltb_ge; lia).
    unfold zeros. rewrite nth_error_repeat by lia. reflexivity.
Qed.

(** X18: the indeterminate contents of the local [TesterData] never reach
    an output.  For a local of exactly the struct's size, two runs that
    differ only in what the local held on entry end alike: both fail or
    both return, with the same parameters and the same calls on the
    calibration object; from version 13 on the tester data built is the
    same too, every byte of it having been overwritten. *)
Theorem ProjectionCalibrate_TesterData_is_overwritten
  (raw : buffer) (len : Z) (calprms td td' : buffer) :
  4 <= sizeTD < 2 ^ 64 ->
  Z.of_nat (List.length td) = sizeTD ->
  Z.of_nat (List.length td') = sizeTD ->
  option_map (fun st => (calprms_obj st, calls st))
    (ProjectionCalibrate L raw len calprms td)
  = option_map (fun st => (calprms_obj st, calls st))
      (ProjectionCalibrate L raw len calprms td')
  /\ (forall ver,
         getVersionOfCalibration raw 4 (4 + 2) = Some ver -> 13 <= ver ->
         ProjectionCalibrate L raw len calprms td
         = ProjectionCalibrate L raw len calprms td').
Proof.
  intros Hs Hl Hl'.
  assert (Hover : forall (hdr tail : list byte),
             List.length hdr = 4%nat ->
             Z.of_nat (List.length tail) = sizeTD - 4 ->
             (t <- store_bytes td 0 hdr ;; store_bytes t 4 tail)
             = (t <- store_bytes td' 0 hdr ;; store_bytes t 4 tail)).
  { intros hdr tail Hh Ht.
    rewrite (store_bytes_ok td), (store_bytes_ok td') by lia.
    cbn [bind]. change (Z.to_nat 0) with 0%nat. cbn [firstn app Nat.add].
    rewrite !store_bytes_ok
      by (rewrite ?length_app, ?length_skipn; lia).
    change (Z.to_nat 4) with 4%nat.
    rewrite !firstn_app, Hh, Nat.sub_diag, !firstn_O, !app_nil_r.
    rewrite !firstn_all2 by lia.
    rewrite !skipn_all2 by (rewrite ?length_app, ?length_skipn; lia).
    reflexivity. }
  assert (Hfrom13 : forall ver,
             getVersionOfCalibration raw 4 (4 + 2) = Some ver -> 13 <= ver ->
             ProjectionCalibrate L raw len calprms td
             = ProjectionCalibrate L raw len calprms td').
  { intros ver Hv Hge. unfold ProjectionCalibrate. rewrite Hv. cbn [bind].
    unfold IVCAM_MIN_SUPPORTED_VERSION, SIZE_OF_CALIB_HEADER_BYTES,
      SIZE_OF_CALIB_PARAM_BYTES.
    fold sizeTD. rewrite (to_size_t_small (sizeTD - 4)) by lia.
    destruct (Z.eqb_spec ver 13) as [->|Hne].
    - destruct (memcpy calprms 0 raw (4 + 4) _) as [c'|]; [|reflexivity].
      cbn [bind]. unfold memcpy, memset.
      destruct (load_bytes raw 4 4) as [hdr|] eqn:Eh; [|reflexivity].
      cbn [bind].
      replace (0 <=? sizeTD - 4) with true by (symmetry; apply Z.leb_le; lia).
      destruct (load_bytes_defined _ _ _ _ Eh) as (_ & _ & _ & _ & Hlh).
      pose proof (Hover hdr (repeat Byte.x00 (Z.to_nat (sizeTD - 4))) Hlh
                    ltac:(rewrite repeat_length; lia)) as Ho.
      destruct (store_bytes td 0 hdr) as [t|];
        destruct (store_bytes td' 0 hdr) as [t'|]; cbn [bind] in Ho |- *;
        rewrite ?Ho; try reflexivity.
      + now rewrite <- Ho.
    - replace (ver >? 13) with true
        by (symmetry; rewrite Z.gtb_ltb; apply Z.ltb_lt; lia).
      destruct (fixWithVersionInfo _ _ raw 4) as [cd|]; [|reflexivity].
      cbn [bind].
      destruct (memcpy calprms 0 cd _ _) as [c'|]; [|reflexivity].
      cbn [bind].
      destruct (load_bytes cd _ _) as [cp|]; [|reflexivity].
      cbn [bind]. unfold memcpy.
      destruct (load_bytes raw 4 4) as [hdr|] eqn:Eh; [|reflexivity].
      cbn [bind].
      destruct (load_bytes_defined _ _ _ _ Eh) as (_ & _ & _ & _ & Hlh).
      destruct (load_bytes raw (4 + (512 + 4)) (sizeTD - 4)) as [tail|] eqn:Et.
      + destruct (load_bytes_defined _ _ _ _ Et) as (_ & _ & _ & _ & Hlt).
        pose proof (Hover hdr tail Hlh ltac:(lia)) as Ho.
        destruct (store_bytes td 0 hdr) as [t|];
          destruct (store_bytes td' 0 hdr) as [t'|]; cbn [bind] in Ho |- *;
          rewrite ?Et; cbn [bind]; rewrite ?Ho; try reflexivity.
        now rewrite <- Ho.
      + destruct (store_bytes td 0 hdr) as [t|];
          destruct (store_bytes td' 0 hdr) as [t'|]; cbn [bind];
          rewrite ?Et; reflexivity. }
  split; [|exact Hfrom13].
  destruct (getVersionOfCalibration raw 4 (4 + 2)) as [ver|] eqn:Hv.
  - destruct (Z.lt_ge_cases ver 13) as [Hlt|Hge].
    + now rewrite !(ProjectionCalibrate_below L raw len calprms _ ver Hv Hlt).
    + now rewrite (Hfrom13 ver eq_refl Hge).
  - unfold ProjectionCalibrate. rewrite Hv. reflexivity.
Qed.

End DecoderInvariants.


Lemma ProjectionCalibrate_calls_witness :
  exists st,
    ProjectionCalibrate sample_layout
      (raw_transfer Byte.x14 Byte.x0a Byte.x01 Byte.x04 Byte.xff) 100
      (zeros 448) (repeat Byte.x55 108)
    = Some st
    /\ existsb is_InitializeThermalData (calls st) = true.
Proof.
  destruct (ProjectionCalibrate sample_layout
              (raw_transfer Byte.x14 Byte.x0a Byte.x01 Byte.x04 Byte.xff) 100
              (zeros 448) (repeat Byte.x55 108)) as [st|] eqn:E.
  - exists st. split; [reflexivity|].
    exact (proj2 (proj2 (proj2
             (ProjectionCalibrate_calls sample_layout _ _ _ _ st 14 E
                eq_refl)))).
  - vm_compute in E. discriminate E.
Defined.

Lemma ProjectionCalibrate_ignores_len_up_to_13_witness :
  ProjectionCalibrate sample_layout
    (raw_transfer Byte.x14 Byte.x0a Byte.x01 Byte.x03 Byte.xff) 0
    (zeros 448) (zeros 108)
  = ProjectionCalibrate sample_layout
      (raw_transfer Byte.x14 Byte.x0a Byte.x01 Byte.x03 Byte.xff) 1000
      (zeros 448) (zeros 108).
Proof.
  apply (ProjectionCalibrate_ignores_len_up_to_13 sample_layout
           (raw_transfer Byte.x14 Byte.x0a Byte.x01 Byte.x03 Byte.xff)
           0 1000 (zeros 448) (zeros 108) 13).
  - reflexivity.
  - lia.
Defined.

Lemma ProjectionCalibrate_versioned_bytes_witness :
  exists st,
    ProjectionCalibrate sample_layout
      (raw_transfer Byte.x14 Byte.x0a Byte.x01 Byte.x04 Byte.xff) 100
      (repeat Byte.x55 448) (zeros 108)
    = Some st
    /\ nth_error (calprms_obj st) 91 = Some Byte.xff
    /\ nth_error (calprms_obj st) 92 = Some Byte.x00.
Proof.
  destruct (ProjectionCalibrate sample_layout
              (raw_transfer Byte.x14 Byte.x0a Byte.x01 Byte.x04 Byte.xff) 100
              (repeat Byte.x55 448) (zeros 108)) as [st|] eqn:E.
  - exists st. split; [reflexivity|]. split.
    + refine (ProjectionCalibrate_versioned_bytes sample_layout _ _ _ _ st 14
                91 sample_layout_ok E eq_refl _ _ _).
      * reflexivity.
      * unfold INT_MAX. lia.
      * vm_compute. lia.
    + refine (ProjectionCalibrate_versioned_bytes sample_layout _ _ _ _ st 14
                92 sample_layout_ok E eq_refl _ _ _).
      * reflexivity.
      * unfold INT_MAX. lia.
      * vm_compute. lia.
  - vm_compute in E. discriminate E.
Defined.

Lemma ProjectionCalibrate_TesterData_is_overwritten_witness :
  ProjectionCalibrate sample_layout
    (raw_transfer Byte.x14 Byte.x0a Byte.x01 Byte.x04 Byte.xff) 100
    (zeros 448) (repeat Byte.x55 108)
  = ProjectionCalibrate sample_layout
      (raw_transfer Byte.x14 Byte.x0a Byte.x01 Byte.x04 Byte.xff) 100
      (zeros 448) (repeat Byte.xaa 108).
Proof.
  refine (proj2 (ProjectionCalibrate_TesterData_is_overwritten sample_layout
                   (raw_transfer Byte.x14 Byte.x0a Byte.x01 Byte.x04 Byte.xff)
                   100 (zeros 448) (repeat Byte.x55 108)
                   (repeat Byte.xaa 108) _ _ _) 14 _ _).
  - cbn. lia.
  - reflexivity.
  - reflexivity.
  - reflexivity.
  - lia.
Defined.

(** ** Version extraction: digits and bounds *)

Lemma load_u8_range (mem : buffer) (off d : Z) :
  load_u8 mem off = Some d -> 0 <= d <= 255.
Proof.
  unfold load_u8. intros H. apply bind_Some in H.
  destruct H as (bs & Hb & H). injection H as <-.
  destruct (load_bytes_defined _ _ _ _ Hb) as (_ & _ & _ & _ & Hl).
  change (Z.to_nat 1) with 1%nat in Hl.
  destruct bs as [|b [|b' bs]]; try discriminate.
  rewrite le_combine_1. pose proof (byte.unsigned_range b).
  change (2 ^ 8) with 256 in *. lia.
Qed.

Lemma bcdtoint_loop_decimal (ds pre post : list byte) (r : Z) :
  0 <= r ->
  (r + 29) * 10 ^ Z.of_nat (List.length ds) <= 29 * 10 ^ 7 ->
  bcdtoint_loop (pre ++ ds ++ post) (Z.of_nat (List.length pre))
    (List.length ds) r
  = Some (fold_left (fun r d => r * 10 + byte.unsigned d) ds r).
Proof.
  revert pre r. induction ds as [|d ds IH]; intros pre r Hr Hb;
    [reflexivity|].
  cbn [List.length bcdtoint_loop fold_left app].
  rewrite load_u8_cons_skip. cbn [bind].
  pose proof (byte.unsigned_range d) as Hd. change (2 ^ 8) with 256 in Hd.
  cbn [List.length] in Hb. rewrite Nat2Z.inj_succ, Z.pow_succ_r in Hb by lia.
  assert (Hp : 1 <= 10 ^ Z.of_nat (List.length ds))
    by (apply Z.lt_pred_le, Z.pow_pos_nonneg; lia).
  change (10 ^ 7) with 10000000 in Hb.
  replace (r * 10 + byte.unsigned d <=? INT_MAX) with true
    by (symmetry; apply Z.leb_le; change INT_MAX with 2147483647; nia).
  specialize (IH (pre ++ [d]) (r * 10 + byte.unsigned d)).
  rewrite <- app_assoc, length_app in IH. cbn [app List.length] in IH.
  replace (Z.of_nat (List.length pre + 1)) with (Z.of_nat (List.length pre) + 1)
    in IH by lia.
  apply IH; [lia|]. change (10 ^ 7) with 10000000. nia.
Qed.

(** X19: what [bcdtoint] computes.  On up to 7 bytes it returns the number
    the bytes spell when each is taken as one decimal digit, most
    significant first; with bytes above 9 the "digits" carry into each
    other, and no [int] overflow is possible.  With a count of zero or
    less it returns 0 and reads nothing, whatever the pointer. *)
Theorem bcdtoint_decimal_value :
  (forall (pre ds post : list byte),
      (List.length ds <= 7)%nat ->
      bcdtoint (pre ++ ds ++ post) (Z.of_nat (List.length pre))
        (Z.of_nat (List.length ds))
      = Some (decimal_value ds))
  /\ (forall (mem : buffer) (buf bufsize : Z),
         bufsize <= 0 -> bcdtoint mem buf bufsize = Some 0).
Proof.
  split.
  - intros pre ds post Hl. unfold bcdtoint, decimal_value.
    rewrite Nat2Z.id. apply bcdtoint_loop_decimal; [lia|].
    change (0 + 29) with 29. apply Z.mul_le_mono_nonneg_l; [lia|].
    apply Z.pow_le_mono_r; lia.
  - intros mem buf bufsize Hle. unfold bcdtoint.
    now replace (Z.to_nat bufsize) with 0%nat by lia.
Qed.

Lemma bcdtoint_decimal_value_witness :
  bcdtoint ([Byte.x14; Byte.x0a] ++ [Byte.x01; Byte.x0c; Byte.xff] ++ [])
    2 3 = Some 475.
Proof.
  exact (proj1 bcdtoint_decimal_value [Byte.x14; Byte.x0a]
           [Byte.x01; Byte.x0c; Byte.xff] [] ltac:(cbn; lia)).
Defined.

(** X20: the range of the version.  Whatever the buffer holds, a version
    that [getVersionOfCalibration] returns lies between 0 and 2805
    (255 * 10 + 255). *)
Theorem getVersionOfCalibration_range
  (mem : buffer) (validation version ver : Z) :
  getVersionOfCalibration mem validation version = Some ver ->
  0 <= ver <= 2805.
Proof.
  unfold getVersionOfCalibration. intros H.
  apply bind_Some in H. destruct H as (tag & _ & H).
  destruct (memcmp valid_tag tag =? 0); [|injection H as <-; lia].
  unfold bcdtoint in H. change (Z.to_nat 2) with 2%nat in H.
  cbn [bcdtoint_loop] in H.
  apply bind_Some in H. destruct H as (d0 & H0 & H).
  apply load_u8_range in H0.
  destruct (0 * 10 + d0 <=? INT_MAX); [|discriminate].
  apply bind_Some in H. destruct H as (d1 & H1 & H).
  apply load_u8_range in H1.
  destruct (_ <=? INT_MAX); [|discriminate].
  injection H as <-. lia.
Qed.

Lemma getVersionOfCalibration_range_witness :
  getVersionOfCalibration [Byte.x14; Byte.x0a; Byte.xff; Byte.xff] 0 2
  = Some 2805
  /\ 0 <= 2805 <= 2805.
Proof.
  split; [reflexivity|].
  exact (getVersionOfCalibration_range
           [Byte.x14; Byte.x0a; Byte.xff; Byte.xff] 0 2 2805 eq_refl).
Defined.

(** ** Temperature reading *)

(** The temperature reading never succeeds.  Both getters being
    stubs that return [false], [ReadTemperatures] zeroes [data] and throws
    "could not get IR temperature", whatever [data] held and whatever the
    locals hold; the MEMS temperature is never asked for and no
    temperature is ever stored. *)
Lemma ReadTemperatures_always_throws
  (float : Type) (float_zero : float) (float_of_int : Z -> float)
  (data : IVCAMTemperatureData float) (IRTemp0 : Z) (LiguriaTemp0 : float) :
  ReadTemperatures float float_zero float_of_int data IRTemp0 LiguriaTemp0
  = (Thrown msg_no_IR_temperature,
     {| LiguriaTemp := float_zero; IRTemp := float_zero |}).
Proof. reflexivity. Qed.

(** ** Hardware I/O object: construction *)



Lemma no_read_in_calibrator (cs : list calibrator_call) :
  existsb is_monitor_read (map calibrator cs) = false.
Proof. induction cs as [|c cs IH]; [reflexivity|exact IH]. Qed.

Section Construction.

Variables (L : Layout) (host : Host) (frame : Frame).

Let dev := monitor_dev host.
Let sizeCCP := sizeof_CameraCalibrationParameters L.

(** X21: construction stops at the first failure.  A null context throws
    before any library call; a device that does not open throws before
    the interface is claimed; a failed claim throws before any monitor
    exchange.  In none of the three cases is the calibration fetched or
    decoded. *)
Theorem construction_aborts_early :
  IVCAMHardwareIOInternal L None host frame
  = {| constructed := Thrown msg_no_context; ctor_trace := [] |}
  /\ (device_opens host = false ->
      IVCAMHardwareIOInternal L (Some tt) host frame
      = {| constructed := Thrown msg_open_failed;
           ctor_trace :=
             [uvc_get_libusb_context;
              libusb_open_device_with_vid_pid IVCAM_VID IVCAM_PID] |})
  /\ (device_opens host = true ->
      claim_status host < 0 ->
      IVCAMHardwareIOInternal L (Some tt) host frame
      = {| constructed := Thrown msg_claim_failed;
           ctor_trace :=
             [uvc_get_libusb_context;
              libusb_open_device_with_vid_pid IVCAM_VID IVCAM_PID;
              libusb_claim_interface IVCAM_MONITOR_INTERFACE] |}).
Proof.
  split; [reflexivity|]. split.
  - intros Ho. unfold IVCAMHardwareIOInternal. now rewrite Ho.
  - intros Ho Hc. unfold IVCAMHardwareIOInternal. rewrite Ho. cbn [negb].
    now replace (claim_status host <? 0) with true
      by (symmetry; apply Z.ltb_lt; lia).
Qed.





(** X24: construction after a failed write.  When the OUT transfer fails
    with a code other than -1, the fetcher returns normally, so
    construction goes on to decode the 1000-byte buffer that nothing has
    written, with a length of 1000: the object, if any, is built from the
    indeterminate contents of the local, the device's answer plays no
    role, no IN transfer is made, and the object's mutex is left held. *)
Theorem construction_after_failed_write :
  device_opens host = true ->
  0 <= claim_status host ->
  out_ret dev < 0 ->
  out_ret dev <> -1 ->
  let c := IVCAMHardwareIOInternal L (Some tt) host frame in
  constructed c
  = match ProjectionCalibrate L (rawCalibrationBuffer frame) 1000
            (calibratedParameters frame) (frame_TesterData frame) with
    | Some st =>
        Returned {| internal_usbMutex := true; parameters := calprms_obj st |}
    | None => UndefinedBehaviour
    end
  /\ existsb is_monitor_read (ctor_trace c) = false.
Proof.
  intros Hop Hcl Hneg Hne c. subst c.
  unfold IVCAMHardwareIOInternal. rewrite Hop. cbn [negb].
  replace (claim_status host <? 0) with false
    by (symmetry; apply Z.ltb_ge; lia).
  fold dev. rewrite GetCalibrationRawData_exchange. cbv zeta.
  unfold ExecuteUSBCommand. cbn [negb].
  replace (out_ret dev <? 0) with true by (symmetry; apply Z.ltb_lt; lia).
  cbn [result usbMutex in_obj inSize_ref trace fetch_result fetch_data
       fetch_bytesReturned fetch_usbMutex fetch_trace].
  replace (out_ret dev =? -1) with false by (symmetry; apply Z.eqb_neq; lia).
  cbn [negb]. change (to_int HW_MONITOR_BUFFER_SIZE) with 1000.
  destruct (ProjectionCalibrate L (rawCalibrationBuffer frame) 1000
              (calibratedParameters frame) (frame_TesterData frame))
    as [st|]; cbn [constructed ctor_trace]; (split; [reflexivity|]).
  - cbn [app map existsb is_monitor_read is_transfer_on orb].
    change (IVCAM_MONITOR_ENDPOINT_OUT =? IVCAM_MONITOR_ENDPOINT_IN) with false.
    cbn [orb]. apply no_read_in_calibrator.
  - reflexivity.
Qed.

End Construction.

Lemma construction_aborts_early_witness :
  IVCAMHardwareIOInternal sample_layout (Some tt)
    {| device_opens := true; claim_status := -6;
       monitor_dev := dev_answers 8 |} sample_frame
  = {| constructed := Thrown msg_claim_failed;
       ctor_trace :=
         [uvc_get_libusb_context;
          libusb_open_device_with_vid_pid IVCAM_VID IVCAM_PID;
          libusb_claim_interface IVCAM_MONITOR_INTERFACE] |}.
Proof.
  apply (proj2 (proj2 (construction_aborts_early sample_layout
                         {| device_opens := true; claim_status := -6;
                            monitor_dev := dev_answers 8 |} sample_frame))).
  - reflexivity.
  - cbn. lia.
Defined.



Lemma construction_after_failed_write_witness :
  let c := IVCAMHardwareIOInternal sample_layout (Some tt)
             (host_with dev_out_timeout) sample_frame in
  constructed c
  = Returned {| internal_usbMutex := true;
                parameters := repeat Byte.xaa 448 |}
  /\ existsb is_monitor_read (ctor_trace c) = false.
Proof.
  apply (construction_after_failed_write sample_layout
           (host_with dev_out_timeout) sample_frame).
  - reflexivity.
  - cbn. lia.
  - cbn. lia.
  - discriminate.
Defined.
